(** * Verification of the S3 RWB gauge receiver firmware

    Shallow embedding of [06-Auto-Guage/PIO/src/main.cpp]: the ESP-NOW
    receive callback [onDataRecv], the link indicator
    [update_link_indicator], the telemetry transform and trip integrator
    [updateUIFromData], [setup] and [loop].

    Machine integers are [Z] with the wrap-around written out, the C type
    [float] is IEEE 754 binary32 through the Standard Library's [SpecFloat]
    (precision 24, emax 128), the received frame is the list of bytes that
    [memcpy] stores, and the LVGL widgets are a record of the values last
    set on them. *)

From Stdlib Require Import ZArith List String Ascii Bool Lia.
From Stdlib Require Import Strings.Byte.
From Stdlib Require Import Floats.SpecFloat.
Import ListNotations.

Local Open Scope string_scope.
Local Open Scope Z_scope.

(* ================================================================== *)
(** * Machine integers *)
(* ================================================================== *)

(** [unsigned long] and [size_t] are 32 bits wide on the ESP32-S3. *)
Definition ULONG_MOD : Z := 2 ^ 32.

(** Conversion of a mathematical integer to [unsigned long] / [size_t]. *)
Definition to_ulong (z : Z) : Z := z mod ULONG_MOD.

Definition INT_MIN : Z := - 2 ^ 31.
Definition INT_MAX : Z := 2 ^ 31 - 1.

Definition is_uint16 (z : Z) : Prop := 0 <= z < 2 ^ 16.
Definition is_ulong (z : Z) : Prop := 0 <= z < ULONG_MOD.
Definition is_int (z : Z) : Prop := INT_MIN <= z <= INT_MAX.

(* ================================================================== *)
(** * binary32 floating point *)
(* ================================================================== *)

Definition prec : Z := 24.
Definition emax : Z := 128.

Definition float32 : Type := spec_float.

Definition f32_add : float32 -> float32 -> float32 := SFadd prec emax.
Definition f32_sub : float32 -> float32 -> float32 := SFsub prec emax.
Definition f32_mul : float32 -> float32 -> float32 := SFmul prec emax.
Definition f32_div : float32 -> float32 -> float32 := SFdiv prec emax.

(** The C operators [<] and [>] on floats: false as soon as one side is
    NaN. *)
Definition f32_lt (x y : float32) : bool := SFltb x y.
Definition f32_gt (x y : float32) : bool := SFltb y x.

(** Conversion of an integer to [float], rounding to nearest even (the
    implicit conversion of [int] and [unsigned long] operands, and the
    value of a decimal literal that is an integer). *)
Definition f32_of_Z (z : Z) : float32 := binary_normalize prec emax z 0 false.

(** A value of the format: canonical mantissa and exponent in range. *)
Definition f32_valid (x : float32) : bool := valid_binary prec emax x.

(** Decoding of the 32 bits of a [float] object. *)
Definition f32_of_bits (w : Z) : float32 :=
  let s := Z.testbit w 31 in
  let e := (w / 2 ^ 23) mod 256 in
  let f := w mod 2 ^ 23 in
  if e =? 0 then
    (if f =? 0 then S754_zero s else S754_finite s (Z.to_pos f) (-149))
  else if e =? 255 then
    (if f =? 0 then S754_infinity s else S754_nan)
  else S754_finite s (Z.to_pos (f + 2 ^ 23)) (e - 150).

(** The least binary32 number above 9.95 and the greatest below 14.05:
    the voltages that print as "10.0" and "14.0" lie between them. *)
Definition f32_9_95_up : float32 := S754_finite false 10433332 (-20).
Definition f32_14_05_down : float32 := S754_finite false 14732492 (-20).

(** The integral part of a float, rounding toward zero; [None] for NaN and
    the infinities. *)
Definition f32_trunc (x : float32) : option Z :=
  match x with
  | S754_zero _ => Some 0
  | S754_finite s m e =>
      Some (cond_Zopp s (if 0 <=? e then Zpos m * 2 ^ e
                         else Zpos m / 2 ^ (- e)))
  | S754_infinity _ | S754_nan => None
  end.

(** One instance of the target-defined result of an out-of-range cast
    (the "integer indefinite" value), used to run the model on concrete
    inputs. *)
Definition cast_indefinite (_ : float32) : Z := INT_MIN.

(* ================================================================== *)
(** * Decimal formatting (the [printf] conversions the firmware uses) *)
(* ================================================================== *)

Definition digit_char (d : Z) : ascii := ascii_of_nat (48 + Z.to_nat d).

(** Modelled from the spec: the C library's [printf] conversions are not
    part of the repository; the spec asks for integer and
    one-decimal-place strings.  The digit loop of [%d]: emit [n mod 10],
    divide, repeat while the quotient is not zero. *)
Fixpoint dec_loop (fuel : nat) (n : Z) (acc : string) : string :=
  match fuel with
  | O => acc
  | S k =>
      let acc' := String (digit_char (n mod 10)) acc in
      if n / 10 =? 0 then acc' else dec_loop k (n / 10) acc'
  end.

(** Decimal digits of a natural number; a number has at most
    [log2 n + 1] digits. *)
Definition dec (n : Z) : string := dec_loop (S (Z.to_nat (Z.log2 n))) n "".

(** Modelled from the spec: the conversion [%d]. *)
Definition fmt_d (z : Z) : string :=
  if z <? 0 then "-" ++ dec (- z) else dec z.

(** The exact value [m * 2^e] times ten, rounded to the nearest integer,
    ties to even. *)
Definition round_tenths (m : positive) (e : Z) : Z :=
  if 0 <=? e then 10 * Zpos m * 2 ^ e
  else
    let d := 2 ^ (- e) in
    let q := (10 * Zpos m) / d in
    let r := (10 * Zpos m) mod d in
    if 2 * r <? d then q
    else if d <? 2 * r then q + 1
    else if Z.even q then q else q + 1.

Definition sign_string (s : bool) : string := if s then "-" else "".

(** Modelled from the spec: the conversion [%.1f], one digit after the
    decimal point, correctly rounded. *)
Definition fmt_1f (x : float32) : string :=
  match x with
  | S754_nan => "nan"
  | S754_infinity s => sign_string s ++ "inf"
  | S754_zero s => sign_string s ++ "0.0"
  | S754_finite s m e =>
      let n := round_tenths m e in
      sign_string s ++ dec (n / 10) ++ "."
        ++ String (digit_char (n mod 10)) ""
  end.

Fixpoint take (n : nat) (s : string) : string :=
  match n, s with
  | S k, String c r => String c (take k r)
  | _, _ => ""
  end.

(** Modelled from the spec: [snprintf(buf, size, ...)] stores at most
    [size - 1] characters of the formatted text, then the terminator. *)
Definition snprintf (size : nat) (text : string) : string :=
  take (size - 1) text.

(** ** Shapes of the texts *)

Definition is_digit (c : ascii) : bool :=
  let n := Z.of_nat (nat_of_ascii c) in (48 <=? n) && (n <=? 57).

Fixpoint all_digits (s : string) : bool :=
  match s with
  | "" => true
  | String c r => is_digit c && all_digits r
  end.

(** A non-empty run of digits, optionally after a minus sign. *)
Definition is_integer_text (s : string) : bool :=
  match s with
  | "" => false
  | String "-" (String c r) => all_digits (String c r)
  | String c r => all_digits (String c r)
  end.

(** Digits, a point, one digit; [seen] tells that a digit came before. *)
Fixpoint one_decimal_tail (s : string) (seen : bool) : bool :=
  match s with
  | "" => false
  | String c r =>
      if is_digit c then one_decimal_tail r true
      else if Ascii.eqb c "." then
        seen && match r with String d "" => is_digit d | _ => false end
      else false
  end.

(** A number printed with exactly one decimal place. *)
Definition is_one_decimal_text (s : string) : bool :=
  match s with
  | String "-" r => one_decimal_tail r false
  | _ => one_decimal_tail s false
  end.

(** The magnitude of a finite float in tenths, as [%.1f] rounds it. *)
Definition f32_tenths (x : float32) : option Z :=
  match x with
  | S754_zero _ => Some 0
  | S754_finite _ m e => Some (round_tenths m e)
  | S754_infinity _ | S754_nan => None
  end.

(** [x] is finite and its magnitude, rounded to one decimal place, is
    below [bound] tenths. *)
Definition prints_below (bound : Z) (x : float32) : bool :=
  match f32_tenths x with
  | Some n => n <? bound
  | None => false
  end.

Fixpoint last_char (s : string) : option ascii :=
  match s with
  | "" => None
  | String c "" => Some c
  | String _ r => last_char r
  end.

(* ================================================================== *)
(** * Arduino and C library helpers *)
(* ================================================================== *)

(** Modelled from the spec: Arduino's [constrain(amt, low, high)] macro,
    which the spec calls clamp, is not part of the repository.  It expands
    to [(amt) < (low) ? (low) : ((amt) > (high) ? (high) : (amt))]; this is
    its instance at [int]. *)
Definition constrain (amt low high : Z) : Z :=
  if amt <? low then low else if amt >? high then high else amt.

(** Modelled from the spec: the same macro at [float].  A NaN fails both
    comparisons and passes through. *)
Definition constrainf (amt low high : float32) : float32 :=
  if f32_lt amt low then low else if f32_gt amt high then high else amt.

(** Modelled from the spec: Arduino's [map(x, in_min, in_max, out_min,
    out_max)], the spec's linearMap, computed in [long] with a truncating
    division. *)
Definition map (x in_min in_max out_min out_max : Z) : Z :=
  Z.quot ((x - in_min) * (out_max - out_min)) (in_max - in_min) + out_min.

(** Modelled from the spec: the C library's [memcpy(dst, src, n)], the
    spec's bytewise copy: the first [n] bytes of [dst] are replaced by the
    first [n] bytes of [src]. *)
Definition memcpy (dst src : list byte) (n : nat) : list byte :=
  (firstn n src ++ skipn n dst)%list.

(* ================================================================== *)
(** * The wire frame *)
(* ================================================================== *)

(** [typedef struct { ... } DashPacket] *)
Record DashPacket : Type := mkDashPacket {
  rpm : Z;          (* uint16_t *)
  batt : float32;
  motor : float32;
  dk : float32;
  gp : float32;
  funk : Z          (* uint8_t *)
}.

(** [sizeof(DashPacket)] on the ESP32-S3: [rpm] at offset 0, two bytes of
    padding, the four floats at offsets 4, 8, 12 and 16, [funk] at offset
    20, three bytes of tail padding. *)
Definition sizeof_DashPacket : Z := 24.

(** Little-endian value of a run of bytes. *)
Definition le_value (bs : list byte) : Z :=
  fold_right (fun b acc => Z.of_N (Byte.to_N b) + 256 * acc) 0 bs.

Definition bytes_at (off len : nat) (mem : list byte) : list byte :=
  firstn len (skipn off mem).

(** The fields of the object stored in a [DashPacket]-sized memory area. *)
Definition read_DashPacket (mem : list byte) : DashPacket :=
  {| rpm := le_value (bytes_at 0 2 mem);
     batt := f32_of_bits (le_value (bytes_at 4 4 mem));
     motor := f32_of_bits (le_value (bytes_at 8 4 mem));
     dk := f32_of_bits (le_value (bytes_at 12 4 mem));
     gp := f32_of_bits (le_value (bytes_at 16 4 mem));
     funk := le_value (bytes_at 20 1 mem) |}.

(* ================================================================== *)
(** * Program state *)
(* ================================================================== *)

(** [lv_color_hex(0xFF0000)] and [lv_color_hex(0x00FF00)] *)
Definition COLOR_RED : Z := 0xFF0000.
Definition COLOR_GREEN : Z := 0x00FF00.

(** The display sink: the value last set on each widget.  [ui_link_dot]
    is [None] while the pointer is [nullptr], and otherwise holds the
    background colour of the dot. *)
Record Display : Type := mkDisplay {
  ui_slider_speed : Z;
  ui_lbl_speed : string;
  ui_roller_mode : Z;
  ui_lbl_trip_value : string;
  ui_bar_battery : Z;
  ui_lbl_battery_value : string;
  ui_lbl_range : string;
  ui_slider_range : Z;
  ui_link_dot : option Z
}.

(** The file-scope variables of [main.cpp]. *)
Record State : Type := mkState {
  latestData : list byte;
  hasNewData : bool;
  lastTripMillis : Z;
  totalDistanceKm : float32;
  lastPacketMillis : Z;
  ui : Display
}.

Definition set_link_dot (c : option Z) (d : Display) : Display :=
  mkDisplay (ui_slider_speed d) (ui_lbl_speed d) (ui_roller_mode d)
    (ui_lbl_trip_value d) (ui_bar_battery d) (ui_lbl_battery_value d)
    (ui_lbl_range d) (ui_slider_range d) c.

Definition set_ui (d : Display) (st : State) : State :=
  mkState (latestData st) (hasNewData st) (lastTripMillis st)
    (totalDistanceKm st) (lastPacketMillis st) d.

Definition set_hasNewData (b : bool) (st : State) : State :=
  mkState (latestData st) b (lastTripMillis st)
    (totalDistanceKm st) (lastPacketMillis st) (ui st).

(** The variables as their initialisers leave them; [d] is the display as
    [ui_init] builds it. *)
Definition boot_state (d : Display) : State :=
  {| latestData := repeat x00 (Z.to_nat sizeof_DashPacket);
     hasNewData := false;
     lastTripMillis := 0;
     totalDistanceKm := S754_zero false;
     lastPacketMillis := 0;
     ui := set_link_dot None d |}.

(* ================================================================== *)
(** * The receive callback *)
(* ================================================================== *)

(** [onDataRecv(info, incomingData, len)]; [now] is what [millis()]
    returns.  [len] is an [int] compared with a [size_t], hence converted
    to unsigned first. *)
Definition onDataRecv (incomingData : list byte) (len : Z) (now : Z)
    (st : State) : State :=
  if to_ulong len =? sizeof_DashPacket then
    {| latestData :=
         memcpy (latestData st) incomingData (Z.to_nat sizeof_DashPacket);
       hasNewData := true;
       lastTripMillis := lastTripMillis st;
       totalDistanceKm := totalDistanceKm st;
       lastPacketMillis := now;
       ui := ui st |}
  else st.

(* ================================================================== *)
(** * The link indicator *)
(* ================================================================== *)

(** [create_link_indicator()]: the dot is created red. *)
Definition create_link_indicator (st : State) : State :=
  set_ui (set_link_dot (Some COLOR_RED) (ui st)) st.

(** [bool link_ok = (millis() - lastPacketMillis) < 1000;] in
    [unsigned long] arithmetic. *)
Definition link_ok (now last : Z) : bool :=
  to_ulong (now - last) <? 1000.

(** [update_link_indicator()] *)
Definition update_link_indicator (now : Z) (st : State) : State :=
  match ui_link_dot (ui st) with
  | None => st
  | Some _ =>
      let col := if link_ok now (lastPacketMillis st)
                 then COLOR_GREEN else COLOR_RED in
      set_ui (set_link_dot (Some col) (ui st)) st
  end.

(* ================================================================== *)
(** * The telemetry transform *)
(* ================================================================== *)

(** [int speedValue = latestData.rpm / 32;] followed by the two clamping
    statements. *)
Definition speedValue (rpm : Z) : Z :=
  let v := Z.quot rpm 32 in
  let v := if v <? 0 then 0 else v in
  let v := if v >? 250 then 250 else v in
  v.

(** The index passed to [lv_roller_set_selected]. *)
Definition roller_mode (speed : Z) : Z :=
  if speed <? 60 then 0
  else if speed <? 80 then 1
  else if speed <? 140 then 2
  else 3.

(** The trip integrator: the statements that follow
    [unsigned long now = millis();].  The difference of the two clock
    readings is taken in [unsigned long]; the division, the product and
    the sum are binary32 operations, each rounded on its own. *)
Definition trip_hours (now last : Z) : float32 :=
  f32_div (f32_of_Z (to_ulong (now - last))) (f32_of_Z 3600000).

Definition trip_update (speed now : Z) (last : Z) (total : float32)
    : Z * float32 :=
  if last =? 0 then (now, total)
  else
    let hours := trip_hours now last in
    (now, f32_add total (f32_mul (f32_of_Z speed) hours)).

Section Target.

(** The cast [(int) x] truncates toward zero.  C leaves it undefined when
    [x] is NaN, infinite or outside the range of [int]; what the target
    produces there is kept abstract. *)
Variable cast_undef : float32 -> Z.

Definition float_to_int (x : float32) : Z :=
  match f32_trunc x with
  | Some z => if (INT_MIN <=? z) && (z <=? INT_MAX) then z else cast_undef x
  | None => cast_undef x
  end.

(** The battery percentage: [batt = constrain(batt, 10.0f, 14.0f);] then
    the cast and the second [constrain]. *)
Definition battPercent (batt : float32) : Z :=
  let batt := constrainf batt (f32_of_Z 10) (f32_of_Z 14) in
  let p := float_to_int
             (f32_mul (f32_div (f32_sub batt (f32_of_Z 10)) (f32_of_Z 4))
                      (f32_of_Z 100)) in
  constrain p 0 100.

(** [int rangeLevel = map(battPercent, 0, 100, 0, 70);] *)
Definition rangeLevel (percent : Z) : Z := map percent 0 100 0 70.

(** The four texts, each through its [snprintf] into its buffer. *)
Definition speedText (speed : Z) : string := snprintf 10 (fmt_d speed).
Definition tripText (total : float32) : string :=
  snprintf 20 (fmt_1f total ++ " ").
Definition batteryText (percent : Z) : string :=
  snprintf 10 (fmt_d percent ++ "%").
Definition voltText (batt : float32) : string :=
  snprintf 10 (fmt_1f batt ++ "V").

(** Sections 1 to 3 of [updateUIFromData]: speed slider and label, roller,
    trip distance.  Reads [latestData.rpm]; [now] is what [millis()]
    returns. *)
Definition update_speed_trip (now : Z) (st : State) : State :=
  let speed := speedValue (rpm (read_DashPacket (latestData st))) in
  let '(last', total') :=
    trip_update speed now (lastTripMillis st) (totalDistanceKm st) in
  let d := ui st in
  {| latestData := latestData st;
     hasNewData := hasNewData st;
     lastTripMillis := last';
     totalDistanceKm := total';
     lastPacketMillis := lastPacketMillis st;
     ui := {| ui_slider_speed := speed;
              ui_lbl_speed := speedText speed;
              ui_roller_mode := roller_mode speed;
              ui_lbl_trip_value := tripText total';
              ui_bar_battery := ui_bar_battery d;
              ui_lbl_battery_value := ui_lbl_battery_value d;
              ui_lbl_range := ui_lbl_range d;
              ui_slider_range := ui_slider_range d;
              ui_link_dot := ui_link_dot d |} |}.

(** Section 4: battery bar and label.  Reads [latestData.batt] and leaves
    the local [battPercent]. *)
Definition update_battery (st : State) : Z * State :=
  let percent := battPercent (batt (read_DashPacket (latestData st))) in
  let d := ui st in
  (percent,
   set_ui {| ui_slider_speed := ui_slider_speed d;
             ui_lbl_speed := ui_lbl_speed d;
             ui_roller_mode := ui_roller_mode d;
             ui_lbl_trip_value := ui_lbl_trip_value d;
             ui_bar_battery := percent;
             ui_lbl_battery_value := batteryText percent;
             ui_lbl_range := ui_lbl_range d;
             ui_slider_range := ui_slider_range d;
             ui_link_dot := ui_link_dot d |} st).

(** Sections 5 and 6: voltage label and range slider.  Reads
    [latestData.batt] again. *)
Definition update_voltage_range (percent : Z) (st : State) : State :=
  let d := ui st in
  set_ui {| ui_slider_speed := ui_slider_speed d;
            ui_lbl_speed := ui_lbl_speed d;
            ui_roller_mode := ui_roller_mode d;
            ui_lbl_trip_value := ui_lbl_trip_value d;
            ui_bar_battery := ui_bar_battery d;
            ui_lbl_battery_value := ui_lbl_battery_value d;
            ui_lbl_range := voltText (batt (read_DashPacket (latestData st)));
            ui_slider_range := rangeLevel percent;
            ui_link_dot := ui_link_dot d |} st.

(** [updateUIFromData()] *)
Definition updateUIFromData (now : Z) (st : State) : State :=
  let st := update_speed_trip now st in
  let '(percent, st) := update_battery st in
  update_voltage_range percent st.

(** [setup()]: the part that touches the modelled variables, that is
    [create_link_indicator()] and the final [lastTripMillis = millis();]. *)
Definition setup (now : Z) (st : State) : State :=
  let st := create_link_indicator st in
  mkState (latestData st) (hasNewData st) now
    (totalDistanceKm st) (lastPacketMillis st) (ui st).

(** One pass of [loop()] with no callback in between; [t_update] and
    [t_link] are the two readings of [millis()]. *)
Definition loop (t_update t_link : Z) (st : State) : State :=
  let st :=
    if hasNewData st
    then updateUIFromData t_update (set_hasNewData false st)
    else st in
  update_link_indicator t_link st.

(** A run of the render loop alone: one pair of clock readings per pass. *)
Fixpoint run_loop (ticks : list (Z * Z)) (st : State) : State :=
  match ticks with
  | [] => st
  | (t_update, t_link) :: rest => run_loop rest (loop t_update t_link st)
  end.

(* ================================================================== *)
(** * The callback interleaved with the render loop *)
(* ================================================================== *)

(** Where the render loop stands.  The callback may run between any two
    of the loop's accesses to the shared variables: [loop] tests and clears
    [hasNewData], then [updateUIFromData] reads [latestData.rpm], later
    [latestData.batt], later [latestData.batt] again; [AtVoltage] carries
    the local [battPercent]. *)
Inductive pc : Type :=
  | AtPoll
  | AtSpeedTrip
  | AtBattery
  | AtVoltage (percent : Z)
  | AtLink.

Record Machine : Type := mkMachine {
  mstate : State;
  mpc : pc
}.

(** What can happen next.  [Recv] is a whole run of the callback: the
    transport hands over a buffer together with its length, which fits
    the [int] parameter [len]. *)
Inductive event : Type :=
  | Recv (incomingData : list byte) (now : Z)
  | Poll
  | SpeedTrip (now : Z)
  | Battery
  | Voltage
  | Link (now : Z).

Definition step (ev : event) (m : Machine) : option Machine :=
  let st := mstate m in
  match ev, mpc m with
  | Recv buf now, p =>
      let len := Z.of_nat (List.length buf) in
      if len <=? INT_MAX
      then Some (mkMachine (onDataRecv buf len now st) p)
      else None
  | Poll, AtPoll =>
      if hasNewData st
      then Some (mkMachine (set_hasNewData false st) AtSpeedTrip)
      else Some (mkMachine st AtLink)
  | SpeedTrip now, AtSpeedTrip =>
      Some (mkMachine (update_speed_trip now st) AtBattery)
  | Battery, AtBattery =>
      let '(percent, st') := update_battery st in
      Some (mkMachine st' (AtVoltage percent))
  | Voltage, AtVoltage percent =>
      Some (mkMachine (update_voltage_range percent st) AtLink)
  | Link now, AtLink =>
      Some (mkMachine (update_link_indicator now st) AtPoll)
  | _, _ => None
  end.

Fixpoint run (tr : list event) (m : Machine) : option Machine :=
  match tr with
  | [] => Some m
  | ev :: rest =>
      match step ev m with
      | Some m' => run rest m'
      | None => None
      end
  end.

(** The callback accepts a buffer exactly when its length is that of the
    frame. *)
Definition accepted (buf : list byte) : bool :=
  Z.of_nat (List.length buf) =? sizeof_DashPacket.

(** The frames the decoder has written during a trace, oldest first. *)
Fixpoint written (tr : list event) : list (list byte) :=
  match tr with
  | [] => []
  | Recv buf _ :: rest =>
      if accepted buf then buf :: written rest else written rest
  | _ :: rest => written rest
  end.

Definition is_dispatch (ev : event) : bool :=
  match ev with Recv _ _ => false | _ => true end.

(** No frame of the right length arrives during the trace. *)
Definition no_arrival (tr : list event) : Prop :=
  Forall (fun ev => match ev with
                    | Recv buf _ => accepted buf = false
                    | _ => True
                    end) tr.

(** What a display shows when every telemetry widget (the trip label
    apart, which depends on the history) was drawn from the frame [f]. *)
Definition renders (f : list byte) (d : Display) : Prop :=
  let p := read_DashPacket f in
  ui_slider_speed d = speedValue (rpm p) /\
  ui_lbl_speed d = speedText (speedValue (rpm p)) /\
  ui_roller_mode d = roller_mode (speedValue (rpm p)) /\
  ui_bar_battery d = battPercent (batt p) /\
  ui_lbl_battery_value d = batteryText (battPercent (batt p)) /\
  ui_lbl_range d = voltText (batt p) /\
  ui_slider_range d = rangeLevel (battPercent (batt p)).

(** The machine right after [setup()] returned at time [t0]. *)
Definition start (d : Display) (t0 : Z) : Machine :=
  mkMachine (setup t0 (boot_state d)) AtPoll.

(* ================================================================== *)
(** * Sample frames and displays *)
(* ================================================================== *)

(** A display with nothing drawn yet. *)
Definition blank_display : Display :=
  mkDisplay 0 "" 0 "" 0 "" "" 0 None.

(** The 24 bytes of a frame with the given [rpm] (two bytes) and [batt]
    (the four bytes of its binary32 encoding), every other byte zero. *)
Definition sample_frame (r0 r1 b0 b1 b2 b3 : byte) : list byte :=
  [r0; r1; x00; x00; b0; b1; b2; b3;
   x00; x00; x00; x00; x00; x00; x00; x00;
   x00; x00; x00; x00; x00; x00; x00; x00].

(** rpm 4000 (0x0FA0), batt 12.0 (0x41400000): the spec's end-to-end
    example. *)
Definition frame_4000_12V : list byte := sample_frame xa0 x0f x00 x00 x40 x41.

(** rpm 3200 (0x0C80), hence speed 100; batt 12.0. *)
Definition frame_3200_12V : list byte := sample_frame x80 x0c x00 x00 x40 x41.

(** rpm 0, batt 20.0 (0x41A00000). *)
Definition frame_0_20V : list byte := sample_frame x00 x00 x00 x00 xa0 x41.

(** rpm 4000, batt 14.01 (0x416028F6). *)
Definition frame_4000_14V01 : list byte :=
  sample_frame xa0 x0f xf6 x28 x60 x41.

(** rpm 4000, batt 1000000.0 (0x49742400). *)
Definition frame_4000_1MV : list byte := sample_frame xa0 x0f x00 x24 x74 x49.

(* ================================================================== *)
(** * The spec's own formulations *)
(* ================================================================== *)

(** The spec's [clamp(x, lo, hi)] on integers. *)
Definition spec_clamp (x lo hi : Z) : Z := Z.max lo (Z.min hi x).

(** The spec's [isLinkUp(now, lastArrivalTimestamp, thresholdMs)]. *)
Definition spec_isLinkUp (now last threshold : Z) : bool :=
  now - last <? threshold.

(* ================================================================== *)
(** * The display flush callback *)
(* ================================================================== *)

(** [static const uint16_t screenWidth = 320;] and [screenHeight]. *)
Definition screenWidth : Z := 320.
Definition screenHeight : Z := 170.

(** [lv_area_t]: the two corners of the area LVGL asks to flush. *)
Record lv_area_t : Type := mkArea {
  x1 : Z;
  y1 : Z;
  x2 : Z;
  y2 : Z
}.

(** What [my_disp_flush] hands to the display driver: the arguments of
    [tft.setAddrWindow] and the number of colours given to
    [tft.pushColors]. *)
Record flush_call : Type := mkFlush {
  win_x : Z;
  win_y : Z;
  win_w : Z;
  win_h : Z;
  push_len : Z
}.

(** [my_disp_flush(disp, area, color_p)]: [w] and [h] are [uint32_t], and
    so is their product. *)
Definition my_disp_flush (area : lv_area_t) : flush_call :=
  let w := to_ulong (x2 area - x1 area + 1) in
  let h := to_ulong (y2 area - y1 area + 1) in
  {| win_x := x1 area; win_y := y1 area; win_w := w; win_h := h;
     push_len := to_ulong (w * h) |}.

(** The eight telemetry widgets of a display, the link dot left out. *)
Definition telemetry (d : Display)
    : Z * string * Z * string * Z * string * string * Z :=
  (ui_slider_speed d, ui_lbl_speed d, ui_roller_mode d, ui_lbl_trip_value d,
   ui_bar_battery d, ui_lbl_battery_value d, ui_lbl_range d,
   ui_slider_range d).

(* ================================================================== *)
(** * Distances as exact numbers *)
(* ================================================================== *)

(** The exact value of a finite float times [2^149], an integer for every
    number of the format (their exponents are at least -149); 0 for the
    zeros. *)
Definition f32_exact (x : float32) : Z :=
  match x with
  | S754_finite s m e => cond_Zopp s (Zpos m * 2 ^ (e + 149))
  | _ => 0
  end.

(** The mantissa [m] fits the format at the exponent [e]: at most 24 bits,
    and [e] not below the exponent the format gives to that magnitude. *)
Definition f32_fits (m : positive) (e : Z) : bool :=
  fexp prec emax (Zpos (digits2_pos m) + e) <=? e.

(** A distance: +0, a positive number of the format, or +infinity;
    neither negative nor NaN. *)
Definition is_distance (x : float32) : bool :=
  match x with
  | S754_zero false => true
  | S754_infinity false => true
  | S754_finite false m e => f32_fits m e
  | _ => false
  end.

(** The order of two distances by their exact values. *)
Definition distance_le (x y : float32) : Prop :=
  match x, y with
  | _, S754_infinity _ => True
  | S754_infinity _, _ => False
  | _, _ => f32_exact x <= f32_exact y
  end.

(** The outcome of rounding a non-negative number: [out] is the float of
    value [m1 * 2^e'], which is +0 when [m1] is 0 and otherwise a
    positive number of the format, or +infinity when its exponent passes
    104. *)
Definition rounded_to (m1 e' : Z) (out : float32) : Prop :=
  (m1 = 0 /\ out = S754_zero false) \/
  (exists m'' e'',
     0 < m1 /\ Zpos m'' * 2 ^ (e'' - e') = m1 /\
     e' <= e'' <= e' + 1 /\ f32_fits m'' e'' = true /\
     ((e'' <= 104 /\ out = S754_finite false m'' e'') \/
      (104 < e'' /\ out = S754_infinity false))).

(** A finite distance: +0 or a positive number of the format. *)
Definition is_finite_distance (x : float32) : bool :=
  match x with
  | S754_zero false => true
  | S754_finite false m e => f32_fits m e
  | _ => false
  end.

(** The float of a 32-bit count: +0, or a positive number of the format
    with an exponent of at most 9. *)
Definition is_count (x : float32) : bool :=
  match x with
  | S754_zero false => true
  | S754_finite false m e => f32_fits m e && (e <=? 9)
  | _ => false
  end.

(** A text whose first character is a digit: what a number printed
    without a sign starts with. *)
Definition starts_with_digit (s : string) : bool :=
  match s with
  | String c _ => is_digit c
  | "" => false
  end.

(* ================================================================== *)
(** * Small facts about the machine integers *)
(* ================================================================== *)

Lemma to_ulong_int_eq (len n : Z) :
  is_int len -> 0 <= n < 2 ^ 31 -> (to_ulong len =? n) = (len =? n).
Proof.
  unfold is_int, INT_MIN, INT_MAX, to_ulong, ULONG_MOD. intros Hl Hn.
  destruct (Z.eqb_spec len n) as [->|Hne].
  - apply Z.eqb_eq. apply Z.mod_small. lia.
  - apply Z.eqb_neq. intro H.
    destruct (Z_lt_le_dec len 0) as [Hneg|Hpos].
    + assert (E : len mod 2 ^ 32 = len + 2 ^ 32).
      { symmetry. apply Z.mod_unique with (q := -1); lia. }
      lia.
    + rewrite Z.mod_small in H by lia. contradiction.
Qed.

Lemma to_ulong_small (z : Z) : is_ulong z -> to_ulong z = z.
Proof. unfold is_ulong, to_ulong. intros H. now apply Z.mod_small. Qed.

(* ================================================================== *)
(** * Speed and mode *)
(* ================================================================== *)

Lemma speedValue_div (r : Z) :
  0 <= r -> speedValue r = if r / 32 >? 250 then 250 else r / 32.
Proof.
  intros Hr. unfold speedValue. rewrite Z.quot_div_nonneg by lia.
  assert (0 <= r / 32) by (apply Z.div_pos; lia).
  destruct (r / 32 <? 0) eqn:E; [apply Z.ltb_lt in E; lia | reflexivity].
Qed.

(** C4.  For every 16-bit rpm the speed value, which [updateUIFromData()]
    puts on the speed slider, is the integer quotient rpm/32 clamped to
    [0, 250]; it never decreases when rpm grows, is 0 at rpm 0 and is 250
    from rpm 8000 on. *)
Theorem speedValue_clamp_monotone (r : Z) :
  is_uint16 r ->
  speedValue r = spec_clamp (r / 32) 0 250 /\
  (forall r', is_uint16 r' -> r <= r' -> speedValue r <= speedValue r') /\
  speedValue 0 = 0 /\
  (8000 <= r -> speedValue r = 250) /\
  (r < 8000 -> speedValue r = r / 32) /\
  (forall now st,
     rpm (read_DashPacket (latestData st)) = r ->
     ui_slider_speed (ui (updateUIFromData now st)) = speedValue r).
Proof.
  unfold is_uint16. intros Hr.
  assert (Hprog : forall now st,
     rpm (read_DashPacket (latestData st)) = r ->
     ui_slider_speed (ui (updateUIFromData now st)) = speedValue r).
  { intros now st <-.
    unfold updateUIFromData, update_speed_trip, update_battery,
      update_voltage_range.
    destruct (trip_update _ _ _ _) as [last' total']. reflexivity. }
  rewrite speedValue_div in * by lia.
  assert (Hq : 0 <= r / 32) by (apply Z.div_pos; lia).
  split; [|split; [|split; [reflexivity|split; [|split; [|exact Hprog]]]]].
  - unfold spec_clamp. destruct (r / 32 >? 250) eqn:E.
    + apply Z.gtb_lt in E. lia.
    + rewrite Z.gtb_ltb in E. apply Z.ltb_ge in E. lia.
  - intros r' Hr' Hle. rewrite speedValue_div by lia.
    assert (r / 32 <= r' / 32) by (apply Z.div_le_mono; lia).
    destruct (r / 32 >? 250) eqn:E, (r' / 32 >? 250) eqn:E';
      rewrite ?Z.gtb_ltb in *;
      try apply Z.ltb_lt in E; try apply Z.ltb_ge in E;
      try apply Z.ltb_lt in E'; try apply Z.ltb_ge in E'; lia.
  - intros H8. assert (250 <= r / 32).
    { change 250 with (8000 / 32). apply Z.div_le_mono; lia. }
    destruct (r / 32 >? 250) eqn:E; [reflexivity|].
    rewrite Z.gtb_ltb in E. apply Z.ltb_ge in E. lia.
  - intros H8. assert (r / 32 <= 249).
    { change 249 with (7999 / 32). apply Z.div_le_mono; lia. }
    destruct (r / 32 >? 250) eqn:E; [|reflexivity].
    apply Z.gtb_lt in E. lia.
Qed.

Lemma roller_mode_cases (v : Z) :
  (v < 60 -> roller_mode v = 0) /\
  (60 <= v < 80 -> roller_mode v = 1) /\
  (80 <= v < 140 -> roller_mode v = 2) /\
  (140 <= v -> roller_mode v = 3).
Proof.
  unfold roller_mode.
  destruct (Z.ltb_spec v 60), (Z.ltb_spec v 80), (Z.ltb_spec v 140);
    repeat split; intros; try reflexivity; lia.
Qed.

(** C7.  The roller index that [updateUIFromData] sets depends on the
    speed value alone: 0 below 60, 1 from 60 to 79, 2 from 80 to 139 and 3
    from 140 on, each boundary falling in the higher band. *)
Theorem roller_mode_bands (now : Z) (st : State) (v : Z) :
  ui_roller_mode (ui (updateUIFromData now st))
    = roller_mode (speedValue (rpm (read_DashPacket (latestData st)))) /\
  (v < 60 -> roller_mode v = 0) /\
  (60 <= v < 80 -> roller_mode v = 1) /\
  (80 <= v < 140 -> roller_mode v = 2) /\
  (140 <= v -> roller_mode v = 3) /\
  roller_mode 59 = 0 /\ roller_mode 60 = 1 /\
  roller_mode 79 = 1 /\ roller_mode 80 = 2 /\
  roller_mode 139 = 2 /\ roller_mode 140 = 3.
Proof.
  split.
  - unfold updateUIFromData, update_speed_trip, update_battery,
      update_voltage_range.
    destruct (trip_update _ _ _ _) as [last' total']. reflexivity.
  - pose proof (roller_mode_cases v) as (H0 & H1 & H2 & H3).
    repeat split; try assumption; reflexivity.
Qed.

(* ================================================================== *)
(** * The receive callback *)
(* ================================================================== *)

Lemma memcpy_whole (dst src : list byte) (n : nat) :
  List.length dst = n -> List.length src = n -> memcpy dst src n = src.
Proof.
  intros Hd Hs. unfold memcpy.
  rewrite firstn_all2 by lia. rewrite skipn_all2 by lia.
  apply app_nil_r.
Qed.

Lemma onDataRecv_reject (buf : list byte) (len now : Z) (st : State) :
  is_int len -> len <> sizeof_DashPacket -> onDataRecv buf len now st = st.
Proof.
  intros Hi Hne. unfold onDataRecv.
  rewrite to_ulong_int_eq by (assumption || (unfold sizeof_DashPacket; lia)).
  apply Z.eqb_neq in Hne. now rewrite Hne.
Qed.

Lemma onDataRecv_accept (buf : list byte) (len now : Z) (st : State) :
  is_int len -> len = sizeof_DashPacket ->
  onDataRecv buf len now st
  = mkState (memcpy (latestData st) buf (Z.to_nat sizeof_DashPacket)) true
      (lastTripMillis st) (totalDistanceKm st) now (ui st).
Proof.
  intros Hi Hlen. unfold onDataRecv.
  rewrite to_ulong_int_eq by (assumption || (unfold sizeof_DashPacket; lia)).
  apply Z.eqb_eq in Hlen. now rewrite Hlen.
Qed.

(** C8.  When the length is that of the frame the callback copies the
    buffer byte for byte into [latestData], sets [hasNewData] and records
    the time in [lastPacketMillis]; for every other length it returns the
    state as it found it. *)
Theorem onDataRecv_spec (buf : list byte) (len now : Z) (st : State) :
  is_int len ->
  List.length (latestData st) = Z.to_nat sizeof_DashPacket ->
  (len = sizeof_DashPacket ->
   Z.of_nat (List.length buf) = len ->
   let st' := onDataRecv buf len now st in
   latestData st' = buf /\
   hasNewData st' = true /\
   lastPacketMillis st' = now /\
   lastTripMillis st' = lastTripMillis st /\
   totalDistanceKm st' = totalDistanceKm st /\
   ui st' = ui st) /\
  (len <> sizeof_DashPacket -> onDataRecv buf len now st = st).
Proof.
  intros Hi Hslot. split.
  - intros Hlen Hbuf. cbv zeta.
    rewrite (onDataRecv_accept buf len now st Hi Hlen).
    cbn [latestData hasNewData lastPacketMillis lastTripMillis
         totalDistanceKm ui].
    split; [apply memcpy_whole; [assumption | lia]|].
    repeat split.
  - intros Hne. now apply onDataRecv_reject.
Qed.

(* ================================================================== *)
(** * The link indicator *)
(* ================================================================== *)

(** While the 32-bit clock has not wrapped since the last arrival, the
    test of [update_link_indicator()] is the spec's [isLinkUp] at the
    threshold 1000. *)
Lemma link_ok_spec (now last : Z) :
  is_ulong now -> is_ulong last -> last <= now ->
  link_ok now last = spec_isLinkUp now last 1000.
Proof.
  unfold is_ulong, link_ok, spec_isLinkUp. intros Hn Hl Hle.
  rewrite to_ulong_small by (unfold is_ulong; lia). reflexivity.
Qed.

(** Without a callback the render loop never touches the arrival time,
    the flag or the existence of the dot. *)
Lemma run_loop_no_frames (ticks : list (Z * Z)) (st : State) :
  hasNewData st = false ->
  let st' := run_loop ticks st in
  hasNewData st' = false /\
  lastPacketMillis st' = lastPacketMillis st /\
  (ui_link_dot (ui st) <> None -> ui_link_dot (ui st') <> None).
Proof.
  revert st. induction ticks as [|[tu tl] rest IH]; intros st Hflag; cbn.
  - auto.
  - assert (Hloop : loop tu tl st = update_link_indicator tl st).
    { unfold loop. now rewrite Hflag. }
    rewrite Hloop.
    assert (Hf : hasNewData (update_link_indicator tl st) = false).
    { unfold update_link_indicator.
      destruct (ui_link_dot (ui st)); cbn; assumption. }
    destruct (IH _ Hf) as (H1 & H2 & H3). split; [exact H1|]. split.
    + rewrite H2. unfold update_link_indicator.
      destruct (ui_link_dot (ui st)); reflexivity.
    + intros Hdot. apply H3. unfold update_link_indicator.
      destruct (ui_link_dot (ui st)); cbn; congruence.
Qed.

(** With no frame since startup the colour set by a pass of the loop is
    decided by the clock alone: green while [millis()] is below 1000, red
    afterwards. *)
Lemma link_dot_without_frames (d : Display) (t0 : Z) (ticks : list (Z * Z))
    (t_update t_link : Z) :
  is_ulong t_link ->
  ui_link_dot
    (ui (loop t_update t_link (run_loop ticks (setup t0 (boot_state d)))))
  = Some (if t_link <? 1000 then COLOR_GREEN else COLOR_RED).
Proof.
  intros Ht.
  pose proof (run_loop_no_frames ticks (setup t0 (boot_state d)) eq_refl)
    as (Hflag & Hlast & Hdot).
  cbn zeta in *. unfold loop. rewrite Hflag.
  unfold update_link_indicator.
  destruct (ui_link_dot (ui (run_loop ticks (setup t0 (boot_state d)))))
    as [c|] eqn:E.
  - cbn. rewrite Hlast. cbn [setup create_link_indicator boot_state
      set_ui lastPacketMillis]. unfold link_ok.
    rewrite Z.sub_0_r, to_ulong_small by assumption. reflexivity.
  - exfalso. apply Hdot; [discriminate | reflexivity].
Qed.

(** C2.  The code at the failing input: [setup()] returns when [millis()]
    reads 300, no frame ever arrives, and the first pass of [loop()] reads
    500 in [update_link_indicator()]: the dot is painted green, that is
    the link is reported up. *)
Theorem link_up_without_any_frame (d : Display) :
  let st := loop 500 500 (setup 300 (boot_state d)) in
  lastPacketMillis st = 0 /\
  hasNewData st = false /\
  ui_link_dot (ui st) = Some COLOR_GREEN.
Proof. cbn. repeat split. Qed.

(* ================================================================== *)
(** * The trip integrator *)
(* ================================================================== *)

Lemma updateUIFromData_trip (now : Z) (st : State) :
  let speed := speedValue (rpm (read_DashPacket (latestData st))) in
  let st' := updateUIFromData now st in
  (lastTripMillis st', totalDistanceKm st')
  = trip_update speed now (lastTripMillis st) (totalDistanceKm st).
Proof.
  cbn zeta. unfold updateUIFromData, update_speed_trip, update_battery,
    update_voltage_range.
  destruct (trip_update _ _ _ _) as [last' total']. reflexivity.
Qed.

Lemma updateUIFromData_latestData (now : Z) (st : State) :
  latestData (updateUIFromData now st) = latestData st.
Proof.
  unfold updateUIFromData, update_speed_trip, update_battery,
    update_voltage_range.
  destruct (trip_update _ _ _ _) as [last' total']. reflexivity.
Qed.

Lemma trip_hours_one_hour (now last : Z) :
  to_ulong (now - last) = 3600000 -> trip_hours now last = f32_of_Z 1.
Proof. unfold trip_hours. intros ->. reflexivity. Qed.

(** C1, as the code has it.  [setup()] stores its reading [t0] of
    [millis()] in [lastTripMillis].  The first [updateUIFromData()] after
    startup records [now]; it leaves the distance at zero when that
    stored reading is 0, and otherwise adds the speed times the hours
    elapsed since [setup()], like every later call. *)
Theorem first_update_after_setup (d : Display) (t0 t_rx now : Z)
    (buf : list byte) :
  let st0 :=
    onDataRecv buf (Z.of_nat (List.length buf)) t_rx
      (setup t0 (boot_state d)) in
  let st1 := updateUIFromData now (set_hasNewData false st0) in
  let speed := speedValue (rpm (read_DashPacket (latestData st0))) in
  lastTripMillis st0 = t0 /\
  totalDistanceKm st0 = S754_zero false /\
  lastTripMillis st1 = now /\
  (t0 = 0 -> totalDistanceKm st1 = totalDistanceKm st0) /\
  (t0 <> 0 ->
   totalDistanceKm st1
   = f32_add (totalDistanceKm st0)
       (f32_mul (f32_of_Z speed)
          (f32_div (f32_of_Z (to_ulong (now - t0))) (f32_of_Z 3600000)))).
Proof.
  cbn zeta.
  set (st0 := onDataRecv buf _ t_rx _).
  assert (Hl : lastTripMillis st0 = t0).
  { unfold st0, onDataRecv. destruct (_ =? _); reflexivity. }
  assert (Ht : totalDistanceKm st0 = S754_zero false).
  { unfold st0, onDataRecv. destruct (_ =? _); reflexivity. }
  pose proof (updateUIFromData_trip now (set_hasNewData false st0)) as Hu.
  cbn zeta in Hu.
  change (latestData (set_hasNewData false st0)) with (latestData st0) in Hu.
  change (lastTripMillis (set_hasNewData false st0))
    with (lastTripMillis st0) in Hu.
  change (totalDistanceKm (set_hasNewData false st0))
    with (totalDistanceKm st0) in Hu.
  rewrite Hl in Hu. unfold trip_update in Hu.
  split; [exact Hl|]. split; [exact Ht|].
  destruct (Z.eqb_spec t0 0) as [E|E];
    apply pair_equal_spec in Hu; destruct Hu as [H1 H2].
  - split; [exact H1|]. split; [intros _; exact H2 | contradiction].
  - split; [exact H1|]. split; [contradiction | intros _].
    rewrite H2, Ht. reflexivity.
Qed.

(** C6, as the code has it.  A call that finds a stored timestamp other
    than 0 adds the speed times the elapsed hours, computed in binary32
    from the 32-bit difference of the clock readings, and stores [now].
    With speed 100 and readings 3,600,000 ms apart the term added is
    exactly 100.0, which from a distance of zero gives exactly 100.0. *)
Theorem trip_accumulates (now : Z) (st : State) :
  lastTripMillis st <> 0 ->
  let speed := speedValue (rpm (read_DashPacket (latestData st))) in
  let st' := updateUIFromData now st in
  totalDistanceKm st'
  = f32_add (totalDistanceKm st)
      (f32_mul (f32_of_Z speed)
         (f32_div (f32_of_Z (to_ulong (now - lastTripMillis st)))
                  (f32_of_Z 3600000))) /\
  lastTripMillis st' = now /\
  (speed = 100 -> to_ulong (now - lastTripMillis st) = 3600000 ->
   totalDistanceKm st' = f32_add (totalDistanceKm st) (f32_of_Z 100) /\
   (totalDistanceKm st = S754_zero false ->
    totalDistanceKm st' = f32_of_Z 100)).
Proof.
  intros Hne. cbn zeta.
  pose proof (updateUIFromData_trip now st) as Hu. cbn zeta in Hu.
  unfold trip_update in Hu.
  apply Z.eqb_neq in Hne. rewrite Hne in Hu.
  apply pair_equal_spec in Hu. destruct Hu as [H1 H2].
  split; [exact H2|]. split; [exact H1|].
  intros Hs Hd. rewrite H2. unfold trip_hours. rewrite Hs, Hd.
  split; [reflexivity|]. intros ->. reflexivity.
Qed.

(* ================================================================== *)
(** * The battery percentage *)
(* ================================================================== *)

Lemma constrain_clamp (x lo hi : Z) :
  lo <= hi -> constrain x lo hi = spec_clamp x lo hi.
Proof.
  intros H. unfold constrain, spec_clamp.
  destruct (Z.ltb_spec x lo); [lia|].
  rewrite Z.gtb_ltb. destruct (Z.ltb_spec hi x); lia.
Qed.

(** [<] between two positive finite floats: by exponent, then by
    mantissa. *)
Lemma SFltb_finite_pos (m1 m2 : positive) (e1 e2 : Z) :
  SFltb (S754_finite false m1 e1) (S754_finite false m2 e2) = true <->
  e1 < e2 \/ (e1 = e2 /\ Zpos m1 < Zpos m2).
Proof.
  unfold SFltb, SFcompare.
  change (Pos.compare_cont Eq m1 m2) with (Pos.compare m1 m2).
  change (Zpos m1 < Zpos m2) with (m1 < m2)%positive.
  destruct (Z.compare_spec e1 e2) as [He|He|He].
  - destruct (Pos.compare_spec m1 m2) as [Hm|Hm|Hm]; split;
      try discriminate; try (intros _; right; now split);
      intros [H|[_ H]]; lia.
  - split; [intros _; now left | reflexivity].
  - split; [discriminate | intros [H|[H _]]; lia].
Qed.

(** A float above 14 is not below 10. *)
Lemma f32_gt_14_not_lt_10 (x : float32) :
  f32_gt x (f32_of_Z 14) = true -> f32_lt x (f32_of_Z 10) = false.
Proof.
  unfold f32_gt, f32_lt.
  change (f32_of_Z 14) with (S754_finite false 14680064 (-20)).
  change (f32_of_Z 10) with (S754_finite false 10485760 (-20)).
  destruct x as [s|s| |s m e].
  - destruct s; intros H; discriminate H.
  - destruct s; intros H; [discriminate H | reflexivity].
  - intros H; discriminate H.
  - destruct s; [intros H; discriminate H|].
    intros H. apply SFltb_finite_pos in H.
    destruct (SFltb _ _) eqn:E; [|reflexivity].
    apply SFltb_finite_pos in E. lia.
Qed.

(** The cast truncates toward zero: for a finite value below [2^31] in
    magnitude the result [z] has the sign of the value and the largest
    magnitude with [|z| <= |x|]. *)
Lemma float_to_int_truncates (s : bool) (m : positive) (e : Z) :
  e < 0 -> Zpos m / 2 ^ (- e) <= INT_MAX ->
  let z := float_to_int (S754_finite s m e) in
  z = cond_Zopp s (Z.abs z) /\
  Z.abs z * 2 ^ (- e) <= Zpos m < (Z.abs z + 1) * 2 ^ (- e).
Proof.
  intros He Hr. cbn zeta. unfold float_to_int, f32_trunc.
  destruct (Z.leb_spec 0 e) as [H0|_]; [lia|].
  assert (Hp : 0 < 2 ^ (- e)) by (apply Z.pow_pos_nonneg; lia).
  set (q := Zpos m / 2 ^ (- e)) in *.
  assert (Hq : 0 <= q) by (apply Z.div_pos; lia).
  assert (Hin : (INT_MIN <=? cond_Zopp s q) && (cond_Zopp s q <=? INT_MAX)
                = true).
  { unfold INT_MIN, INT_MAX in *. apply andb_true_intro.
    destruct s; cbn; split; apply Z.leb_le; lia. }
  rewrite Hin.
  assert (Habs : Z.abs (cond_Zopp s q) = q) by (destruct s; cbn; lia).
  rewrite Habs. split; [reflexivity|].
  pose proof (Z.div_mod (Zpos m) (2 ^ (- e)) ltac:(lia)) as Hdm.
  pose proof (Z.mod_pos_bound (Zpos m) (2 ^ (- e)) Hp) as Hb.
  fold q in Hdm. nia.
Qed.

(** C5.  The battery percentage, which [updateUIFromData()] puts on the
    battery bar, is the clamp to [0, 100] of the truncated
    value of ((clamp(batt, 10, 14) - 10) / 4) * 100, computed in binary32:
    it always lies in [0, 100]; it is 0 at 10.0, 100 at 14.0 and 50 at
    12.0; every voltage below 10 gives what 10 gives and every voltage
    above 14 what 14 gives; and the conversion drops the fraction (11.99
    gives 49, not 50). *)
Theorem battPercent_spec (v : float32) :
  battPercent v
  = spec_clamp
      (float_to_int
         (f32_mul
            (f32_div
               (f32_sub (constrainf v (f32_of_Z 10) (f32_of_Z 14))
                        (f32_of_Z 10))
               (f32_of_Z 4))
            (f32_of_Z 100)))
      0 100 /\
  0 <= battPercent v <= 100 /\
  battPercent (f32_of_Z 10) = 0 /\
  battPercent (f32_of_Z 14) = 100 /\
  battPercent (f32_of_Z 12) = 50 /\
  (f32_lt v (f32_of_Z 10) = true -> battPercent v = 0) /\
  (f32_gt v (f32_of_Z 14) = true -> battPercent v = 100) /\
  battPercent (f32_of_bits 0x413FD70A) = 49 /\
  (forall now st,
     batt (read_DashPacket (latestData st)) = v ->
     ui_bar_battery (ui (updateUIFromData now st)) = battPercent v).
Proof.
  assert (Hf : battPercent v = spec_clamp
      (float_to_int
         (f32_mul
            (f32_div
               (f32_sub (constrainf v (f32_of_Z 10) (f32_of_Z 14))
                        (f32_of_Z 10))
               (f32_of_Z 4))
            (f32_of_Z 100))) 0 100).
  { unfold battPercent. apply constrain_clamp. lia. }
  split; [exact Hf|]. split.
  { rewrite Hf. unfold spec_clamp. lia. }
  split; [reflexivity|]. split; [reflexivity|]. split; [reflexivity|].
  split; [|split].
  - intros Hlt. unfold battPercent, constrainf. rewrite Hlt. reflexivity.
  - intros Hgt. unfold battPercent, constrainf.
    rewrite (f32_gt_14_not_lt_10 v Hgt), Hgt. reflexivity.
  - split; [reflexivity|]. intros now st <-.
    unfold updateUIFromData, update_speed_trip, update_battery,
      update_voltage_range.
    destruct (trip_update _ _ _ _) as [last' total']. reflexivity.
Qed.

(* ================================================================== *)
(** * Interleavings of the callback and the render loop *)
(* ================================================================== *)

Lemma run_app (tr1 tr2 : list event) (m : Machine) :
  run (tr1 ++ tr2)%list m
  = match run tr1 m with Some m' => run tr2 m' | None => None end.
Proof.
  revert m. induction tr1 as [|ev tr1 IH]; intros m; cbn.
  - reflexivity.
  - destruct (step ev m) as [m'|]; [apply IH | reflexivity].
Qed.

Lemma written_app (tr1 tr2 : list event) :
  written (tr1 ++ tr2)%list = (written tr1 ++ written tr2)%list.
Proof.
  induction tr1 as [|ev tr1 IH]; cbn; [reflexivity|].
  destruct ev; try exact IH.
  destruct (accepted incomingData); cbn; now rewrite IH.
Qed.

Lemma update_speed_trip_shared (now : Z) (st : State) :
  latestData (update_speed_trip now st) = latestData st /\
  hasNewData (update_speed_trip now st) = hasNewData st.
Proof.
  unfold update_speed_trip.
  destruct (trip_update _ _ _ _) as [last' total']. split; reflexivity.
Qed.

(** A buffer of another length leaves the machine as it is. *)
Lemma step_Recv_rejected (buf : list byte) (now : Z) (m m' : Machine) :
  accepted buf = false -> step (Recv buf now) m = Some m' -> m' = m.
Proof.
  unfold accepted, step. intros Hrej.
  destruct (Z.leb_spec (Z.of_nat (List.length buf)) INT_MAX) as [Hle|];
    [|discriminate].
  intros [= <-]. rewrite onDataRecv_reject.
  - now destruct m.
  - unfold is_int, INT_MIN. lia.
  - now apply Z.eqb_neq.
Qed.

Lemma step_Recv_accepted (buf : list byte) (now : Z) (m : Machine) :
  accepted buf = true ->
  List.length (latestData (mstate m)) = Z.to_nat sizeof_DashPacket ->
  exists m', step (Recv buf now) m = Some m' /\
             latestData (mstate m') = buf /\
             hasNewData (mstate m') = true /\
             mpc m' = mpc m.
Proof.
  unfold accepted. intros Hacc Hslot. apply Z.eqb_eq in Hacc.
  assert (Hi : is_int (Z.of_nat (List.length buf))).
  { unfold is_int, INT_MIN, INT_MAX. rewrite Hacc.
    unfold sizeof_DashPacket. lia. }
  pose proof (onDataRecv_accept buf _ now (mstate m) Hi Hacc) as Hrecv.
  eexists. unfold step. split.
  - destruct (Z.leb_spec (Z.of_nat (List.length buf)) INT_MAX) as [_|Hgt].
    + reflexivity.
    + rewrite Hacc in Hgt. unfold INT_MAX, sizeof_DashPacket in Hgt. lia.
  - cbn [mstate mpc]. rewrite Hrecv.
    cbn [latestData hasNewData]. split; [|split; reflexivity].
    apply memcpy_whole; [assumption | lia].
Qed.

(** The shared slot along a trace: it always holds a whole frame, the one
    written last (the zero-initialised object before the first write), and
    the flag is raised only after a write. *)
Lemma slot_holds_last_written (d : Display) (t0 : Z) (tr : list event)
    (m : Machine) :
  run tr (start d t0) = Some m ->
  List.length (latestData (mstate m)) = Z.to_nat sizeof_DashPacket /\
  latestData (mstate m)
  = last (written tr) (repeat x00 (Z.to_nat sizeof_DashPacket)) /\
  (hasNewData (mstate m) = true -> written tr <> []).
Proof.
  revert m. induction tr as [|ev tr IH] using rev_ind; intros m Hrun.
  - cbn in Hrun. injection Hrun as <-. cbn. repeat split. discriminate.
  - rewrite run_app in Hrun.
    destruct (run tr (start d t0)) as [m1|] eqn:E1; [|discriminate].
    destruct (IH m1 eq_refl) as (Hlen & Hlast & Hflag).
    cbn [run] in Hrun.
    destruct (step ev m1) as [m2|] eqn:E2; [|discriminate].
    injection Hrun as <-. rewrite written_app.
    destruct ev as [buf now| |now| | |now].
    + cbn [written]. destruct (accepted buf) eqn:Hacc.
      * destruct (step_Recv_accepted buf now m1 Hacc Hlen)
          as (m' & Hs & Hd & Hf & _).
        rewrite Hs in E2. injection E2 as <-.
        rewrite Hd, last_last. repeat split.
        -- unfold accepted in Hacc. apply Z.eqb_eq in Hacc. lia.
        -- intros _ Hnil. now apply app_eq_nil in Hnil as [_ Hnil].
      * apply (step_Recv_rejected buf now m1 m2 Hacc) in E2. subst m2.
        rewrite app_nil_r. auto.
    + cbn [written]. rewrite app_nil_r. unfold step in E2.
      destruct (mpc m1); try discriminate.
      destruct (hasNewData (mstate m1)) eqn:Hf; injection E2 as <-; cbn.
      * repeat split; try assumption. discriminate.
      * repeat split; try assumption. congruence.
    + cbn [written]. rewrite app_nil_r. unfold step in E2.
      destruct (mpc m1); try discriminate. injection E2 as <-. cbn [mstate].
      destruct (update_speed_trip_shared now (mstate m1)) as [-> ->]. auto.
    + cbn [written]. rewrite app_nil_r. unfold step in E2.
      destruct (mpc m1); try discriminate. cbn in E2.
      injection E2 as <-. cbn. auto.
    + cbn [written]. rewrite app_nil_r. unfold step in E2.
      destruct (mpc m1); try discriminate. injection E2 as <-. cbn. auto.
    + cbn [written]. rewrite app_nil_r. unfold step in E2.
      destruct (mpc m1); try discriminate. injection E2 as <-.
      cbn [mstate]. unfold update_link_indicator.
      destruct (ui_link_dot (ui (mstate m1))); cbn; auto.
Qed.

Lemma run_no_arrival (tick : list event) (m m' : Machine) :
  no_arrival tick -> run tick m = Some m' ->
  run (filter is_dispatch tick) m = Some m'.
Proof.
  revert m. induction tick as [|ev tick IH]; intros m Hno Hrun.
  - exact Hrun.
  - inversion Hno as [|? ? Hev Hrest]; subst.
    cbn [run] in Hrun. destruct (step ev m) as [m1|] eqn:E; [|discriminate].
    destruct ev as [buf now| |now| | |now]; cbn [filter is_dispatch run];
      try (rewrite E; now apply IH).
    apply (step_Recv_rejected buf now m m1 Hev) in E. subst m1.
    now apply IH.
Qed.

(** One pass of the loop's update with no callback in between is
    [updateUIFromData()] on the state with the flag cleared. *)
Lemma run_update_sequential (t : Z) (m : Machine) :
  mpc m = AtPoll -> hasNewData (mstate m) = true ->
  run [Poll; SpeedTrip t; Battery; Voltage] m
  = Some (mkMachine (updateUIFromData t (set_hasNewData false (mstate m)))
            AtLink).
Proof.
  destruct m as [st p]. cbn [mpc mstate]. intros -> Hflag.
  cbn [run step mpc mstate]. rewrite Hflag. reflexivity.
Qed.

(** A whole pass, link indicator included, is [loop()]. *)
Lemma run_pass_sequential (t_update t_link : Z) (m : Machine) :
  mpc m = AtPoll ->
  run (if hasNewData (mstate m)
       then [Poll; SpeedTrip t_update; Battery; Voltage; Link t_link]
       else [Poll; Link t_link]) m
  = Some (mkMachine (loop t_update t_link (mstate m)) AtPoll).
Proof.
  destruct m as [st p]. cbn [mpc mstate]. intros ->. unfold loop.
  destruct (hasNewData st) eqn:Hflag; cbn [run step mpc mstate];
    rewrite Hflag; reflexivity.
Qed.

Lemma updateUIFromData_renders (now : Z) (st : State) :
  renders (latestData st) (ui (updateUIFromData now st)).
Proof.
  unfold renders, updateUIFromData, update_speed_trip, update_battery,
    update_voltage_range.
  destruct (trip_update _ _ _ _) as [last' total']. cbn.
  repeat split.
Qed.

(** C3, as the code has it.  Take any interleaving that brings the loop
    to its test of [hasNewData] with the flag raised, and let the update
    that follows run while no frame of the expected length arrives (other
    callback runs may interleave).  Then [latestData] is byte for byte the
    frame the decoder wrote last, and everything the pass draws comes from
    that one frame. *)
Theorem pass_without_arrival_renders_one_frame (d : Display) (t0 : Z)
    (tr tick : list event) (t : Z) (m m' : Machine) :
  run tr (start d t0) = Some m ->
  mpc m = AtPoll ->
  hasNewData (mstate m) = true ->
  no_arrival tick ->
  filter is_dispatch tick = [Poll; SpeedTrip t; Battery; Voltage] ->
  run tick m = Some m' ->
  exists f,
    In f (written tr) /\
    f = last (written tr) [] /\
    latestData (mstate m') = f /\
    renders f (ui (mstate m')) /\
    mstate m' = updateUIFromData t (set_hasNewData false (mstate m)).
Proof.
  intros Htr Hpc Hflag Hno Hdisp Hrun.
  destruct (slot_holds_last_written d t0 tr m Htr) as (_ & Hlast & Hw).
  specialize (Hw Hflag).
  apply (run_no_arrival tick m m' Hno) in Hrun.
  rewrite Hdisp, (run_update_sequential t m Hpc Hflag) in Hrun.
  injection Hrun as <-. cbn [mstate].
  destruct (exists_last Hw) as (ws & f & Hws).
  exists f. rewrite Hws in *. rewrite last_last in Hlast.
  rewrite last_last, updateUIFromData_latestData.
  change (latestData (set_hasNewData false (mstate m)))
    with (latestData (mstate m)).
  split; [apply in_or_app; right; now left|].
  split; [reflexivity|].
  split; [exact Hlast|].
  split; [|reflexivity].
  rewrite <- Hlast.
  apply (updateUIFromData_renders t (set_hasNewData false (mstate m))).
Qed.

(* ================================================================== *)
(** * Decimal texts *)
(* ================================================================== *)

Lemma length_append (s t : string) :
  String.length (s ++ t) = (String.length s + String.length t)%nat.
Proof. induction s as [|c s IH]; cbn; [reflexivity | now rewrite IH]. Qed.

Lemma append_assoc (s t u : string) : (s ++ t) ++ u = s ++ (t ++ u).
Proof. induction s as [|c s IH]; cbn; [reflexivity | now rewrite IH]. Qed.

Lemma take_all (n : nat) (s : string) :
  (String.length s <= n)%nat -> take n s = s.
Proof.
  revert n. induction s as [|c s IH]; intros [|n] H; cbn in *;
    try reflexivity; try lia.
  now rewrite IH by lia.
Qed.

Lemma length_take (n : nat) (s : string) :
  String.length (take n s) = Nat.min n (String.length s).
Proof.
  revert n. induction s as [|c s IH]; intros [|n]; cbn; try reflexivity.
  now rewrite IH.
Qed.

Lemma all_digits_append (s t : string) :
  all_digits (s ++ t) = all_digits s && all_digits t.
Proof.
  induction s as [|c s IH]; cbn; [reflexivity|].
  now rewrite IH, andb_assoc.
Qed.

Ltac digit_cases d H :=
  assert (d = 0 \/ d = 1 \/ d = 2 \/ d = 3 \/ d = 4 \/
          d = 5 \/ d = 6 \/ d = 7 \/ d = 8 \/ d = 9) as H by lia;
  repeat (destruct H as [H|H]; [subst d|]); [..|subst d].

Lemma is_digit_digit_char (d : Z) :
  0 <= d <= 9 -> is_digit (digit_char d) = true.
Proof. intros H. digit_cases d Hd; reflexivity. Qed.

Lemma digit_char_inj (a b : Z) :
  0 <= a <= 9 -> 0 <= b <= 9 -> digit_char a = digit_char b -> a = b.
Proof.
  intros Ha Hb. digit_cases a Hda; digit_cases b Hdb;
    intros H; try reflexivity; discriminate H.
Qed.

(** The accumulator of the digit loop is a suffix of its result. *)
Lemma dec_loop_acc (fuel : nat) (n : Z) (acc : string) :
  dec_loop fuel n acc = dec_loop fuel n "" ++ acc.
Proof.
  revert n acc. induction fuel as [|k IH]; intros n acc; cbn.
  - reflexivity.
  - destruct (n / 10 =? 0); [reflexivity|].
    rewrite (IH (n / 10) (String _ acc)), (IH (n / 10) (String _ "")).
    now rewrite append_assoc.
Qed.

Lemma dec_loop_S (k : nat) (n : Z) (acc : string) :
  dec_loop (S k) n acc
  = if n / 10 =? 0 then String (digit_char (n mod 10)) acc
    else dec_loop k (n / 10) (String (digit_char (n mod 10)) acc).
Proof. reflexivity. Qed.

(** Fuel beyond the number of binary digits changes nothing. *)
Lemma dec_loop_fuel (k1 k2 : nat) (n : Z) (acc : string) :
  0 <= n < 2 ^ Z.of_nat (S k1) -> n < 2 ^ Z.of_nat (S k2) ->
  dec_loop (S k1) n acc = dec_loop (S k2) n acc.
Proof.
  revert k2 n acc. induction k1 as [|k1 IH]; intros k2 n acc H1 H2;
    rewrite !dec_loop_S.
  - change (2 ^ Z.of_nat 1) with 2 in H1.
    rewrite Z.div_small by lia. reflexivity.
  - destruct (Z.eqb_spec (n / 10) 0) as [E|E]; [reflexivity|].
    assert (Hq : 0 < n / 10).
    { pose proof (Z.div_pos n 10 ltac:(lia) ltac:(lia)). lia. }
    destruct k2 as [|k2].
    + change (2 ^ Z.of_nat 1) with 2 in H2.
      rewrite Z.div_small in Hq by lia. lia.
    + rewrite (Nat2Z.inj_succ (S k1)), Z.pow_succ_r in H1 by lia.
      rewrite (Nat2Z.inj_succ (S k2)), Z.pow_succ_r in H2 by lia.
      apply IH.
      * split; [lia|]. apply Z.div_lt_upper_bound; lia.
      * apply Z.div_lt_upper_bound; lia.
Qed.

Lemma dec_fuel_enough (n : Z) :
  0 <= n -> n < 2 ^ Z.of_nat (S (Z.to_nat (Z.log2 n))).
Proof.
  intros Hn. rewrite Nat2Z.inj_succ, Z2Nat.id by apply Z.log2_nonneg.
  destruct (Z.eq_dec n 0) as [->|Hne]; [reflexivity|].
  apply Z.log2_spec. lia.
Qed.

(** The two equations of the decimal text of a natural number. *)
Lemma dec_small (n : Z) :
  0 <= n < 10 -> dec n = String (digit_char n) "".
Proof.
  intros H. unfold dec. cbn [dec_loop].
  rewrite Z.div_small, Z.mod_small by lia. reflexivity.
Qed.

Lemma dec_large (n : Z) :
  10 <= n -> dec n = dec (n / 10) ++ String (digit_char (n mod 10)) "".
Proof.
  intros H. unfold dec at 1. rewrite dec_loop_S.
  assert (Hq : 0 < n / 10) by (apply Z.div_str_pos; lia).
  destruct (Z.eqb_spec (n / 10) 0); [lia|].
  rewrite dec_loop_acc. f_equal. unfold dec.
  pose proof (dec_fuel_enough n ltac:(lia)) as Hf.
  assert (Hl : 1 <= Z.log2 n).
  { change 1 with (Z.log2 2). apply Z.log2_le_mono. lia. }
  destruct (Z.to_nat (Z.log2 n)) as [|k] eqn:Ek; [lia|].
  rewrite (Nat2Z.inj_succ (S k)), Z.pow_succ_r in Hf by lia.
  apply dec_loop_fuel.
  - split; [lia|]. apply Z.div_lt_upper_bound; lia.
  - apply dec_fuel_enough. lia.
Qed.

Lemma dec_shape (k : nat) (n : Z) :
  0 <= n < 10 ^ Z.of_nat (S k) ->
  all_digits (dec n) = true /\
  (1 <= String.length (dec n) <= S k)%nat.
Proof.
  revert n. induction k as [|k IH]; intros n Hn.
  - change (10 ^ Z.of_nat 1) with 10 in Hn. rewrite dec_small by lia.
    cbn [all_digits String.length].
    rewrite is_digit_digit_char by lia. split; [reflexivity | lia].
  - destruct (Z_lt_le_dec n 10) as [Hs|Hl].
    + rewrite dec_small by lia. cbn [all_digits String.length].
      rewrite is_digit_digit_char by lia. split; [reflexivity | lia].
    + rewrite dec_large by lia.
      rewrite (Nat2Z.inj_succ (S k)), Z.pow_succ_r in Hn by lia.
      destruct (IH (n / 10)) as [Hd Hlen].
      { split; [apply Z.div_pos; lia|].
        apply Z.div_lt_upper_bound; lia. }
      rewrite all_digits_append, length_append, Hd.
      cbn [all_digits String.length andb].
      rewrite is_digit_digit_char
        by (pose proof (Z.mod_pos_bound n 10); lia).
      split; [reflexivity | lia].
Qed.

Lemma dec_all_digits (n : Z) : 0 <= n -> all_digits (dec n) = true.
Proof.
  intros Hn. apply (dec_shape (Z.to_nat n) n).
  split; [assumption|]. rewrite Nat2Z.inj_succ, Z2Nat.id by assumption.
  pose proof (Z.pow_gt_lin_r 10 (Z.succ n)). lia.
Qed.

Lemma dec_length_upper (k : nat) (n : Z) :
  0 <= n < 10 ^ Z.of_nat (S k) -> (String.length (dec n) <= S k)%nat.
Proof. intros H. apply (dec_shape k n H). Qed.

Lemma dec_nonempty (n : Z) : 0 <= n -> (1 <= String.length (dec n))%nat.
Proof.
  intros Hn. apply (dec_shape (Z.to_nat n) n).
  split; [assumption|]. rewrite Nat2Z.inj_succ, Z2Nat.id by assumption.
  pose proof (Z.pow_gt_lin_r 10 (Z.succ n)). lia.
Qed.

Lemma dec_length_lower (k : nat) (n : Z) :
  10 ^ Z.of_nat k <= n -> (S k <= String.length (dec n))%nat.
Proof.
  revert n. induction k as [|k IH]; intros n Hn.
  - apply dec_nonempty. cbn in Hn. lia.
  - rewrite Nat2Z.inj_succ, Z.pow_succ_r in Hn by lia.
    assert (0 < 10 ^ Z.of_nat k) by (apply Z.pow_pos_nonneg; lia).
    rewrite dec_large by lia. rewrite length_append.
    cbn [String.length].
    assert (10 ^ Z.of_nat k <= n / 10).
    { apply Z.div_le_lower_bound; lia. }
    specialize (IH (n / 10) ltac:(assumption)). lia.
Qed.

Lemma dec_two_digits (n : Z) :
  10 <= n < 100 ->
  dec n = String (digit_char (n / 10)) (String (digit_char (n mod 10)) "").
Proof.
  intros H. rewrite dec_large by lia. rewrite dec_small; [reflexivity|].
  split; [apply Z.div_pos; lia | apply Z.div_lt_upper_bound; lia].
Qed.

Lemma fmt_d_nonneg (z : Z) : 0 <= z -> fmt_d z = dec z.
Proof.
  intros H. unfold fmt_d. destruct (Z.ltb_spec z 0); [lia | reflexivity].
Qed.

Lemma is_integer_text_digits (s : string) :
  (1 <= String.length s)%nat -> all_digits s = true ->
  is_integer_text s = true.
Proof.
  destruct s as [|c r]; cbn [String.length]; [lia|]. intros _ H.
  unfold is_integer_text.
  destruct c as [[] [] [] [] [] [] [] []]; try exact H.
  cbn in H. discriminate H.
Qed.

(** [%d] of a non-negative number below [10^9] is a run of at most nine
    digits, which [snprintf] into a ten-byte buffer stores whole. *)
Lemma fmt_d_text (z : Z) :
  0 <= z < 10 ^ 9 ->
  is_integer_text (fmt_d z) = true /\ (String.length (fmt_d z) <= 9)%nat.
Proof.
  intros H. rewrite fmt_d_nonneg by lia. split.
  - apply is_integer_text_digits; [apply dec_nonempty | apply dec_all_digits];
      lia.
  - apply (dec_length_upper 8). exact H.
Qed.

Lemma round_tenths_nonneg (m : positive) (e : Z) : 0 <= round_tenths m e.
Proof.
  unfold round_tenths. destruct (Z.leb_spec 0 e) as [He|He].
  - assert (0 < 2 ^ e) by (apply Z.pow_pos_nonneg; lia). nia.
  - assert (0 < 2 ^ (- e)) by (apply Z.pow_pos_nonneg; lia).
    assert (0 <= 10 * Zpos m / 2 ^ (- e)) by (apply Z.div_pos; lia).
    cbn zeta.
    destruct (_ <? _); [assumption|].
    destruct (_ <? _); [lia|].
    destruct (Z.even _); lia.
Qed.

Lemma one_decimal_tail_digits (ds : string) (d : ascii) (seen : bool) :
  all_digits ds = true ->
  seen = true \/ (1 <= String.length ds)%nat ->
  is_digit d = true ->
  one_decimal_tail (ds ++ String "." (String d "")) seen = true.
Proof.
  revert seen. induction ds as [|c r IH]; intros seen Hall Hseen Hd.
  - cbn. destruct Hseen as [->|Hl]; [|cbn in Hl; lia]. now rewrite Hd.
  - cbn in Hall. apply andb_prop in Hall as [Hc Hr].
    cbn [append one_decimal_tail]. rewrite Hc. apply IH; auto.
Qed.

Lemma is_one_decimal_text_digits (ds : string) (d : ascii) :
  all_digits ds = true -> (1 <= String.length ds)%nat ->
  is_digit d = true ->
  is_one_decimal_text (ds ++ String "." (String d "")) = true /\
  is_one_decimal_text ("-" ++ ds ++ String "." (String d "")) = true.
Proof.
  intros Hall Hlen Hd. split.
  - pose proof (one_decimal_tail_digits ds d false Hall (or_intror Hlen) Hd)
      as H.
    destruct ds as [|c r]; [cbn in Hlen; lia|].
    cbn in Hall. apply andb_prop in Hall as [Hc _].
    cbn [append] in *. unfold is_one_decimal_text.
    destruct c as [[] [] [] [] [] [] [] []]; try exact H.
    cbn in Hc. discriminate Hc.
  - cbn. now apply one_decimal_tail_digits; [|right|].
Qed.

(** [%.1f] of a finite float: an optional sign, the digits of the integral
    part, a point, one digit. *)
Lemma fmt_1f_shape (x : float32) (n : Z) :
  f32_tenths x = Some n ->
  is_one_decimal_text (fmt_1f x) = true /\
  (String.length (fmt_1f x) <= 3 + String.length (dec (n / 10)))%nat.
Proof.
  destruct x as [s|s| |s m e]; cbn [f32_tenths]; intros [= <-].
  - destruct s; cbn; split; (reflexivity || lia).
  - pose proof (round_tenths_nonneg m e) as Hn.
    set (n := round_tenths m e) in *.
    assert (Hq : 0 <= n / 10) by (apply Z.div_pos; lia).
    assert (Hr : 0 <= n mod 10 <= 9)
      by (pose proof (Z.mod_pos_bound n 10); lia).
    destruct (is_one_decimal_text_digits (dec (n / 10))
                (digit_char (n mod 10)))
      as [Hpos Hneg];
      [now apply dec_all_digits | now apply dec_nonempty
      | now apply is_digit_digit_char |].
    unfold fmt_1f. fold n.
    change (dec (n / 10) ++ "." ++ String (digit_char (n mod 10)) "")
      with (dec (n / 10) ++ String "." (String (digit_char (n mod 10)) "")).
    destruct s; cbn [sign_string]; (split; [assumption|]);
      rewrite ?length_append; cbn; rewrite ?length_append; cbn; lia.
Qed.

Lemma fmt_1f_fits (k : nat) (x : float32) (c : string) :
  prints_below (10 ^ Z.of_nat (S (S k))) x = true ->
  String.length c = 1%nat ->
  is_one_decimal_text (fmt_1f x) = true /\
  snprintf (5 + S k) (fmt_1f x ++ c) = fmt_1f x ++ c.
Proof.
  unfold prints_below. destruct (f32_tenths x) as [n|] eqn:E;
    [|discriminate].
  intros Hb Hc. apply Z.ltb_lt in Hb.
  destruct (fmt_1f_shape x n E) as [Hshape Hlen]. split; [assumption|].
  unfold snprintf. apply take_all. rewrite length_append, Hc.
  assert (Hn : 0 <= n).
  { destruct x; cbn in E; try discriminate; injection E as <-;
      [lia | apply round_tenths_nonneg]. }
  assert (Hq : (String.length (dec (n / 10)) <= S k)%nat).
  { apply dec_length_upper. split; [apply Z.div_pos; lia|].
    rewrite (Nat2Z.inj_succ (S k)), Z.pow_succ_r in Hb by lia.
    apply Z.div_lt_upper_bound; lia. }
  lia.
Qed.

Lemma speedValue_range (r : Z) : 0 <= speedValue r <= 250.
Proof.
  unfold speedValue. cbv zeta.
  destruct (Z.ltb_spec (Z.quot r 32) 0) as [H|H].
  - change (0 >? 250) with false. cbv iota. lia.
  - rewrite Z.gtb_ltb. destruct (Z.ltb_spec 250 (Z.quot r 32)); lia.
Qed.

Lemma battPercent_range (v : float32) : 0 <= battPercent v <= 100.
Proof.
  unfold battPercent. rewrite constrain_clamp by lia.
  unfold spec_clamp. lia.
Qed.

Lemma last_char_append_one (s : string) (c : ascii) :
  last_char (s ++ String c "") = Some c.
Proof.
  induction s as [|a r IH]; [reflexivity|].
  cbn [append last_char]. rewrite IH.
  destruct (r ++ String c "") eqn:E; [|reflexivity].
  destruct r; discriminate E.
Qed.

(** C9, as the code has it.  After [updateUIFromData()] the speed label
    is the speed as an integer text and the battery label the percentage
    as an integer text followed by a percent sign.  The trip label is the
    distance with one decimal place followed by one space, provided the
    distance is finite and prints below 10^15; the voltage label is the
    received voltage with one decimal place followed by "V", provided the
    voltage is finite and prints below 100000.0 in magnitude. *)
Theorem label_texts (now : Z) (st : State) :
  let p := read_DashPacket (latestData st) in
  let st' := updateUIFromData now st in
  let speed := speedValue (rpm p) in
  let percent := battPercent (batt p) in
  (ui_lbl_speed (ui st') = fmt_d speed /\
   is_integer_text (fmt_d speed) = true) /\
  (ui_lbl_battery_value (ui st') = fmt_d percent ++ "%" /\
   is_integer_text (fmt_d percent) = true) /\
  (prints_below (10 ^ 16) (totalDistanceKm st') = true ->
   ui_lbl_trip_value (ui st') = fmt_1f (totalDistanceKm st') ++ " " /\
   is_one_decimal_text (fmt_1f (totalDistanceKm st')) = true) /\
  (prints_below (10 ^ 6) (batt p) = true ->
   ui_lbl_range (ui st') = fmt_1f (batt p) ++ "V" /\
   is_one_decimal_text (fmt_1f (batt p)) = true).
Proof.
  cbn zeta.
  set (p := read_DashPacket (latestData st)).
  assert (Hui : ui (updateUIFromData now st) =
    mkDisplay (speedValue (rpm p)) (speedText (speedValue (rpm p)))
      (roller_mode (speedValue (rpm p)))
      (tripText (totalDistanceKm (updateUIFromData now st)))
      (battPercent (batt p)) (batteryText (battPercent (batt p)))
      (voltText (batt p)) (rangeLevel (battPercent (batt p)))
      (ui_link_dot (ui st))).
  { unfold updateUIFromData, update_speed_trip, update_battery,
      update_voltage_range. fold p.
    destruct (trip_update _ _ _ _) as [last' total']. reflexivity. }
  rewrite Hui. cbn [ui_lbl_speed ui_lbl_battery_value ui_lbl_trip_value
    ui_lbl_range].
  pose proof (speedValue_range (rpm p)) as Hs.
  pose proof (battPercent_range (batt p)) as Hb.
  destruct (fmt_d_text (speedValue (rpm p)) ltac:(lia)) as [Hs1 Hs2].
  destruct (fmt_d_text (battPercent (batt p)) ltac:(lia)) as [Hb1 _].
  split; [|split; [|split]].
  - split; [|exact Hs1]. unfold speedText, snprintf. now apply take_all.
  - split; [|exact Hb1]. unfold batteryText, snprintf. apply take_all.
    rewrite length_append. cbn [String.length].
    rewrite fmt_d_nonneg by lia.
    pose proof (dec_length_upper 2 (battPercent (batt p))
                  ltac:(change (10 ^ Z.of_nat 3) with 1000; lia)).
    lia.
  - intros Ht.
    destruct (fmt_1f_fits 14 _ " " Ht eq_refl) as [H1 H2].
    split; [exact H2 | exact H1].
  - intros Hv.
    destruct (fmt_1f_fits 4 _ "V" Hv eq_refl) as [H1 H2].
    split; [exact H2 | exact H1].
Qed.

(* ================================================================== *)
(** * Floats decoded from a frame *)
(* ================================================================== *)

Lemma digits2_pos_bounds (m : positive) :
  2 ^ (Zpos (digits2_pos m) - 1) <= Zpos m < 2 ^ Zpos (digits2_pos m).
Proof.
  induction m as [p IH|p IH|]; cbn [digits2_pos].
  - rewrite Pos2Z.inj_succ.
    replace (Z.succ (Zpos (digits2_pos p)) - 1)
      with (Z.succ (Zpos (digits2_pos p) - 1)) by lia.
    rewrite !Z.pow_succ_r by lia. lia.
  - rewrite Pos2Z.inj_succ.
    replace (Z.succ (Zpos (digits2_pos p)) - 1)
      with (Z.succ (Zpos (digits2_pos p) - 1)) by lia.
    rewrite !Z.pow_succ_r by lia. lia.
  - cbn. lia.
Qed.

Lemma digits2_pos_unique (m : positive) (d : Z) :
  0 < d -> 2 ^ (d - 1) <= Zpos m < 2 ^ d -> Zpos (digits2_pos m) = d.
Proof.
  intros Hd [Hlo Hhi]. pose proof (digits2_pos_bounds m) as [Blo Bhi].
  set (k := Zpos (digits2_pos m)) in *. assert (0 < k) by (unfold k; lia).
  destruct (Z.lt_trichotomy k d) as [Hlt|[Heq|Hgt]]; [|assumption|].
  - assert (2 ^ k <= 2 ^ (d - 1)) by (apply Z.pow_le_mono_r; lia). lia.
  - assert (2 ^ d <= 2 ^ (k - 1)) by (apply Z.pow_le_mono_r; lia). lia.
Qed.

(** What validity says of the mantissa and exponent of a binary32. *)
Lemma f32_valid_finite (s : bool) (m : positive) (e : Z) :
  f32_valid (S754_finite s m e) = true ->
  Zpos m < 2 ^ 24 /\ (-149 < e -> 2 ^ 23 <= Zpos m) /\ -149 <= e <= 104.
Proof.
  unfold f32_valid, valid_binary, bounded, canonical_mantissa, fexp, emin,
    prec, emax.
  intros H. apply andb_prop in H as [Hc He].
  apply Z.eqb_eq in Hc. apply Z.leb_le in He.
  pose proof (digits2_pos_bounds m) as [Blo Bhi].
  set (k := Zpos (digits2_pos m)) in *. assert (0 < k) by (unfold k; lia).
  assert (Hk : k <= 24) by lia.
  repeat split; try lia.
  - assert (2 ^ k <= 2 ^ 24) by (apply Z.pow_le_mono_r; lia). lia.
  - intros Hgt. assert (k = 24) by lia.
    replace (k - 1) with 23 in Blo by lia. exact Blo.
Qed.

Lemma f32_of_bits_valid (w : Z) :
  0 <= w < 2 ^ 32 -> f32_valid (f32_of_bits w) = true.
Proof.
  intros Hw. unfold f32_of_bits.
  pose proof (Z.mod_pos_bound (w / 2 ^ 23) 256 ltac:(lia)) as He.
  pose proof (Z.mod_pos_bound w (2 ^ 23) ltac:(lia)) as Hf.
  set (e := (w / 2 ^ 23) mod 256) in *. set (f := w mod 2 ^ 23) in *.
  destruct (Z.eqb_spec e 0) as [E0|E0].
  - destruct (Z.eqb_spec f 0) as [F0|F0]; [reflexivity|].
    unfold f32_valid, valid_binary, bounded, canonical_mantissa, fexp, emin,
      prec, emax.
    pose proof (digits2_pos_bounds (Z.to_pos f)) as [Blo Bhi].
    rewrite Z2Pos.id in Blo, Bhi by lia.
    set (k := Zpos (digits2_pos (Z.to_pos f))) in *.
    assert (0 < k) by (unfold k; lia).
    assert (k <= 23).
    { destruct (Z_le_gt_dec k 23); [assumption|].
      assert (2 ^ 23 <= 2 ^ (k - 1)) by (apply Z.pow_le_mono_r; lia). lia. }
    apply andb_true_intro. split; [apply Z.eqb_eq | apply Z.leb_le]; lia.
  - destruct (Z.eqb_spec e 255) as [E1|E1].
    + destruct (f =? 0); reflexivity.
    + unfold f32_valid, valid_binary, bounded, canonical_mantissa, fexp,
        emin, prec, emax.
      rewrite (digits2_pos_unique (Z.to_pos (f + 2 ^ 23)) 24)
        by (rewrite ?Z2Pos.id; lia).
      apply andb_true_intro. split; [apply Z.eqb_eq | apply Z.leb_le]; lia.
Qed.

Lemma le_value_bound (bs : list byte) :
  0 <= le_value bs < 256 ^ Z.of_nat (List.length bs).
Proof.
  induction bs as [|b bs IH].
  - cbn. lia.
  - cbn [le_value fold_right List.length]. fold (le_value bs).
    rewrite Nat2Z.inj_succ, Z.pow_succ_r by lia.
    pose proof (Byte.to_N_bounded b). lia.
Qed.

Lemma rpm_is_uint16 (mem : list byte) :
  is_uint16 (rpm (read_DashPacket mem)).
Proof.
  cbn [rpm read_DashPacket]. unfold is_uint16.
  pose proof (le_value_bound (bytes_at 0 2 mem)) as H.
  assert (Hl : (List.length (bytes_at 0 2 mem) <= 2)%nat).
  { unfold bytes_at. rewrite length_firstn. lia. }
  assert (256 ^ Z.of_nat (List.length (bytes_at 0 2 mem)) <= 256 ^ 2)
    by (apply Z.pow_le_mono_r; lia).
  change (2 ^ 16) with (256 ^ 2). lia.
Qed.

Lemma batt_valid (mem : list byte) :
  f32_valid (batt (read_DashPacket mem)) = true.
Proof.
  cbn [batt read_DashPacket]. apply f32_of_bits_valid.
  pose proof (le_value_bound (bytes_at 4 4 mem)) as H.
  assert (Hl : (List.length (bytes_at 4 4 mem) <= 4)%nat).
  { unfold bytes_at. rewrite length_firstn. lia. }
  assert (256 ^ Z.of_nat (List.length (bytes_at 4 4 mem)) <= 256 ^ 4)
    by (apply Z.pow_le_mono_r; lia).
  change (2 ^ 32) with (256 ^ 4). lia.
Qed.

(* ================================================================== *)
(** * The voltage label against the clamped voltage *)
(* ================================================================== *)

Lemma constrainf_low (v : float32) :
  f32_lt v f32_9_95_up = true ->
  constrainf v (f32_of_Z 10) (f32_of_Z 14) = f32_of_Z 10.
Proof.
  intros H. unfold constrainf.
  assert (Hlt : f32_lt v (f32_of_Z 10) = true); [|now rewrite Hlt].
  revert H. unfold f32_lt, f32_9_95_up.
  change (f32_of_Z 10) with (S754_finite false 10485760 (-20)).
  destruct v as [s|s| |s m e]; try (intros H; exact H).
  destruct s; [intros H; exact H|].
  rewrite !SFltb_finite_pos. lia.
Qed.

Lemma constrainf_high (v : float32) :
  f32_gt v f32_14_05_down = true ->
  constrainf v (f32_of_Z 10) (f32_of_Z 14) = f32_of_Z 14.
Proof.
  intros H. unfold constrainf.
  assert (Hgt : f32_gt v (f32_of_Z 14) = true).
  { revert H. unfold f32_gt, f32_14_05_down.
    change (f32_of_Z 14) with (S754_finite false 14680064 (-20)).
    destruct v as [s|s| |s m e]; try (intros H; exact H).
    destruct s; [intros H; exact H|].
    rewrite !SFltb_finite_pos. lia. }
  now rewrite (f32_gt_14_not_lt_10 v Hgt), Hgt.
Qed.

(** Rounding to tenths moves the quotient up by at most one. *)
Lemma round_tenths_quotient (m : positive) (e : Z) :
  e < 0 ->
  10 * Zpos m / 2 ^ (- e) <= round_tenths m e <= 10 * Zpos m / 2 ^ (- e) + 1.
Proof.
  intros He. unfold round_tenths.
  destruct (Z.leb_spec 0 e); [lia|]. cbv zeta.
  destruct (_ <? _); [lia|]. destruct (_ <? _); [lia|].
  destruct (Z.even _); lia.
Qed.

(** A valid positive float above 14.05 prints as 14.1 or more. *)
Lemma round_tenths_above (m : positive) (e : Z) :
  f32_valid (S754_finite false m e) = true ->
  f32_gt (S754_finite false m e) f32_14_05_down = true ->
  141 <= round_tenths m e.
Proof.
  intros Hv Hgt. apply f32_valid_finite in Hv as (Hhi & Hlo & He).
  unfold f32_gt, f32_14_05_down in Hgt. apply SFltb_finite_pos in Hgt.
  change (2 ^ 23) with 8388608 in Hlo. change (2 ^ 24) with 16777216 in Hhi.
  destruct (Z.eq_dec e (-20)) as [->|Hne].
  - assert (Hm : 14732493 <= Zpos m) by lia.
    unfold round_tenths. change (0 <=? -20) with false.
    change (2 ^ (- (-20))) with 1048576. cbv iota zeta.
    pose proof (Z.div_mod (10 * Zpos m) 1048576 ltac:(lia)) as Hdm.
    pose proof (Z.mod_pos_bound (10 * Zpos m) 1048576 ltac:(lia)) as Hb.
    set (q := 10 * Zpos m / 1048576) in *.
    set (r := (10 * Zpos m) mod 1048576) in *.
    destruct (Z.ltb_spec (2 * r) 1048576); [lia|].
    destruct (Z.ltb_spec 1048576 (2 * r)); [lia|].
    destruct (Z.even q); lia.
  - assert (Hgt20 : -20 < e) by lia. specialize (Hlo ltac:(lia)).
    destruct (Z_lt_le_dec e 0) as [Hneg|Hpos].
    + pose proof (round_tenths_quotient m e Hneg) as [Hq _].
      assert (Hd : 2 ^ (- e) <= 2 ^ 19) by (apply Z.pow_le_mono_r; lia).
      change (2 ^ 19) with 524288 in Hd.
      assert (0 < 2 ^ (- e)) by (apply Z.pow_pos_nonneg; lia).
      assert (160 <= 10 * Zpos m / 2 ^ (- e)).
      { apply Z.div_le_lower_bound; lia. }
      lia.
    + unfold round_tenths. destruct (Z.leb_spec 0 e); [|lia].
      assert (0 < 2 ^ e) by (apply Z.pow_pos_nonneg; lia). nia.
Qed.

(** A valid positive float below 9.95 prints as 9.9 or less. *)
Lemma round_tenths_below (m : positive) (e : Z) :
  f32_valid (S754_finite false m e) = true ->
  f32_lt (S754_finite false m e) f32_9_95_up = true ->
  round_tenths m e <= 99.
Proof.
  intros Hv Hlt. apply f32_valid_finite in Hv as (Hhi & Hlo & He).
  unfold f32_lt, f32_9_95_up in Hlt. apply SFltb_finite_pos in Hlt.
  change (2 ^ 24) with 16777216 in Hhi.
  destruct (Z.eq_dec e (-20)) as [->|Hne].
  - assert (Hm : Zpos m <= 10433331) by lia.
    unfold round_tenths. change (0 <=? -20) with false.
    change (2 ^ (- (-20))) with 1048576. cbv iota zeta.
    pose proof (Z.div_mod (10 * Zpos m) 1048576 ltac:(lia)) as Hdm.
    pose proof (Z.mod_pos_bound (10 * Zpos m) 1048576 ltac:(lia)) as Hb.
    set (q := 10 * Zpos m / 1048576) in *.
    set (r := (10 * Zpos m) mod 1048576) in *.
    destruct (Z.ltb_spec (2 * r) 1048576); [lia|].
    destruct (Z.ltb_spec 1048576 (2 * r)); [lia|].
    destruct (Z.even q); lia.
  - assert (Hlt21 : e <= -21) by lia.
    pose proof (round_tenths_quotient m e ltac:(lia)) as [_ Hq].
    assert (Hd : 2 ^ 21 <= 2 ^ (- e)) by (apply Z.pow_le_mono_r; lia).
    change (2 ^ 21) with 2097152 in Hd.
    assert (10 * Zpos m / 2 ^ (- e) < 80).
    { apply Z.div_lt_upper_bound; lia. }
    lia.
Qed.

Lemma voltText_finite (s : bool) (m : positive) (e : Z) :
  voltText (S754_finite s m e)
  = take 9 (sign_string s ++ dec (round_tenths m e / 10)
              ++ String "." (String (digit_char (round_tenths m e mod 10))
                               "V")).
Proof.
  unfold voltText, snprintf, fmt_1f. cbv zeta.
  rewrite !append_assoc. reflexivity.
Qed.

Lemma voltText_not_10 (m : positive) (e : Z) :
  round_tenths m e <= 99 -> voltText (S754_finite false m e) <> "10.0V".
Proof.
  intros Hn. pose proof (round_tenths_nonneg m e) as H0.
  rewrite voltText_finite. set (n := round_tenths m e) in *.
  rewrite dec_small.
  - cbn [sign_string append take]. intros H. discriminate H.
  - split; [apply Z.div_pos; lia | apply Z.div_lt_upper_bound; lia].
Qed.

Lemma voltText_not_14 (m : positive) (e : Z) :
  141 <= round_tenths m e -> voltText (S754_finite false m e) <> "14.0V".
Proof.
  intros Hn. rewrite voltText_finite. set (n := round_tenths m e) in *.
  cbn [sign_string append].
  assert (Hr : 0 <= n mod 10 <= 9)
    by (pose proof (Z.mod_pos_bound n 10); lia).
  destruct (Z_lt_le_dec (n / 10) 100) as [Hsmall|Hbig].
  - assert (Hq : 14 <= n / 10) by (apply Z.div_le_lower_bound; lia).
    assert (Hq1 : 0 <= n / 10 / 10 <= 9).
    { split; [apply Z.div_pos; lia|].
      assert (n / 10 / 10 < 10) by (apply Z.div_lt_upper_bound; lia). lia. }
    assert (Hq2 : 0 <= (n / 10) mod 10 <= 9)
      by (pose proof (Z.mod_pos_bound (n / 10) 10); lia).
    rewrite dec_two_digits by lia. cbn [append take].
    intros H. injection H as Ha Hb Hc.
    change "1"%char with (digit_char 1) in Ha.
    change "4"%char with (digit_char 4) in Hb.
    change "0"%char with (digit_char 0) in Hc.
    apply digit_char_inj in Ha; [|assumption|lia].
    apply digit_char_inj in Hb; [|assumption|lia].
    apply digit_char_inj in Hc; [|assumption|lia].
    pose proof (Z.div_mod n 10 ltac:(lia)).
    pose proof (Z.div_mod (n / 10) 10 ltac:(lia)). lia.
  - pose proof (dec_length_lower 2 (n / 10) Hbig) as Hlen.
    intros H. apply (f_equal String.length) in H.
    rewrite length_take, length_append in H. cbn [String.length] in H. lia.
Qed.

Lemma voltText_negative (m : positive) (e : Z) (t : string) :
  voltText (S754_finite true m e) <> String "1" t.
Proof.
  rewrite voltText_finite. cbn [sign_string append take].
  intros H. discriminate H.
Qed.

(** A voltage below 9.95 or above 14.05 does not print like the clamped
    voltage. *)
Lemma voltText_differs (v : float32) :
  f32_valid v = true ->
  f32_lt v f32_9_95_up = true \/ f32_gt v f32_14_05_down = true ->
  voltText v <> voltText (constrainf v (f32_of_Z 10) (f32_of_Z 14)).
Proof.
  intros Hv [Hlo|Hhi].
  - rewrite (constrainf_low v Hlo).
    change (voltText (f32_of_Z 10)) with "10.0V".
    destruct v as [s|s| |s m e].
    + destruct s; intros H; discriminate H.
    + destruct s; [intros H; discriminate H | discriminate Hlo].
    + discriminate Hlo.
    + destruct s; [apply voltText_negative|].
      apply voltText_not_10. now apply round_tenths_below.
  - rewrite (constrainf_high v Hhi).
    change (voltText (f32_of_Z 14)) with "14.0V".
    destruct v as [s|s| |s m e].
    + destruct s; discriminate Hhi.
    + destruct s; [discriminate Hhi | intros H; discriminate H].
    + discriminate Hhi.
    + destruct s; [discriminate Hhi|].
      apply voltText_not_14. now apply round_tenths_above.
Qed.

(** C10, as the code has it.  The voltage label prints the received
    [batt], while the bar, the percent label and the range slider come
    from the copy clamped to [10, 14]; 20.0 shows "20.0V" next to "100%".
    For every frame whose voltage is below 9.95 or above 14.05 the label
    differs from what the clamped voltage would print; between 9.95 and
    10, and between 14 and 14.05, both print alike. *)
Theorem voltage_label_shows_received_value (now : Z) (st : State) :
  let v := batt (read_DashPacket (latestData st)) in
  let st' := updateUIFromData now st in
  ui_lbl_range (ui st') = voltText v /\
  ui_bar_battery (ui st') = battPercent v /\
  ui_lbl_battery_value (ui st') = batteryText (battPercent v) /\
  ui_slider_range (ui st') = rangeLevel (battPercent v) /\
  (f32_lt v f32_9_95_up = true \/ f32_gt v f32_14_05_down = true ->
   ui_lbl_range (ui st')
   <> voltText (constrainf v (f32_of_Z 10) (f32_of_Z 14))) /\
  (v = f32_of_Z 20 ->
   ui_lbl_range (ui st') = "20.0V" /\ ui_lbl_battery_value (ui st') = "100%").
Proof.
  cbn zeta.
  pose proof (updateUIFromData_renders now st)
    as (_ & _ & _ & Hbar & Hpct & Hvolt & Hrange).
  split; [exact Hvolt|]. split; [exact Hbar|]. split; [exact Hpct|].
  split; [exact Hrange|]. split.
  - intros Hout. rewrite Hvolt.
    apply voltText_differs; [apply batt_valid | exact Hout].
  - intros H20. rewrite Hvolt, Hpct, H20. split; reflexivity.
Qed.

(* ================================================================== *)
(** * Further properties of the transform *)
(* ================================================================== *)

Lemma updateUIFromData_frame (now : Z) (st : State) :
  let st' := updateUIFromData now st in
  hasNewData st' = hasNewData st /\
  lastPacketMillis st' = lastPacketMillis st /\
  ui_link_dot (ui st') = ui_link_dot (ui st).
Proof.
  cbv zeta. unfold updateUIFromData, update_speed_trip, update_battery,
    update_voltage_range.
  destruct (trip_update _ _ _ _) as [last' total']. repeat split.
Qed.

(** X1.  The roller index in terms of the received rpm: the speed
    thresholds 60, 80 and 140 are the rpm thresholds 1920, 2560 and
    4480. *)
Theorem roller_mode_of_rpm (now : Z) (st : State) :
  let r := rpm (read_DashPacket (latestData st)) in
  ui_roller_mode (ui (updateUIFromData now st))
  = if r <? 1920 then 0
    else if r <? 2560 then 1
    else if r <? 4480 then 2
    else 3.
Proof.
  cbv zeta.
  pose proof (rpm_is_uint16 (latestData st)) as Hr. unfold is_uint16 in Hr.
  pose proof (updateUIFromData_renders now st) as (_ & _ & -> & _).
  set (r := rpm (read_DashPacket (latestData st))) in *.
  rewrite speedValue_div by lia. unfold roller_mode.
  rewrite Z.gtb_ltb.
  pose proof (Z.div_mod r 32 ltac:(lia)) as Hdm.
  pose proof (Z.mod_pos_bound r 32 ltac:(lia)) as Hmod.
  destruct (Z.ltb_spec 250 (r / 32)) as [Hbig|Hsmall].
  - assert (8032 <= r) by lia.
    destruct (Z.ltb_spec r 1920); [lia|].
    destruct (Z.ltb_spec r 2560); [lia|].
    destruct (Z.ltb_spec r 4480); [lia | reflexivity].
  - destruct (Z.ltb_spec (r / 32) 60), (Z.ltb_spec r 1920); try lia;
      try reflexivity.
    destruct (Z.ltb_spec (r / 32) 80), (Z.ltb_spec r 2560); try lia;
      try reflexivity.
    destruct (Z.ltb_spec (r / 32) 140), (Z.ltb_spec r 4480); try lia;
      reflexivity.
Qed.

Lemma rangeLevel_floor (p : Z) :
  0 <= p -> rangeLevel p = 7 * p / 10.
Proof.
  intros Hp. unfold rangeLevel, map.
  rewrite Z.quot_div_nonneg by lia.
  replace ((p - 0) * (70 - 0)) with (7 * p * 10) by lia.
  change (100 - 0) with (10 * 10).
  rewrite Z.div_mul_cancel_r by lia. lia.
Qed.

(** X2.  The range slider is seven tenths of the battery percentage,
    rounded down: it stays within [0, 70], never exceeds the percentage,
    reaches 70 only at 100 percent and is 0 only at 0 or 1 percent. *)
Theorem range_slider_of_percent (now : Z) (st : State) :
  let d := ui (updateUIFromData now st) in
  ui_slider_range d = 7 * ui_bar_battery d / 10 /\
  0 <= ui_slider_range d <= 70 /\
  ui_slider_range d <= ui_bar_battery d /\
  (ui_slider_range d = 70 <-> ui_bar_battery d = 100) /\
  (ui_slider_range d = 0 <-> ui_bar_battery d <= 1).
Proof.
  cbv zeta.
  pose proof (updateUIFromData_renders now st)
    as (_ & _ & _ & Hbar & _ & _ & Hrange).
  rewrite Hrange, Hbar.
  pose proof (battPercent_range (batt (read_DashPacket (latestData st))))
    as Hp.
  set (p := battPercent _) in *.
  rewrite rangeLevel_floor by lia.
  pose proof (Z.div_mod (7 * p) 10 ltac:(lia)) as Hdm.
  pose proof (Z.mod_pos_bound (7 * p) 10 ltac:(lia)) as Hmod.
  repeat split; intros; lia.
Qed.

(* ================================================================== *)
(** * Elapsed time across the wrap of the 32-bit clock *)
(* ================================================================== *)

(** The difference of two readings of [millis()] taken [d] ms apart is
    [d], also when the clock wrapped in between. *)
Lemma elapsed_across_wrap (last d : Z) :
  is_ulong last -> is_ulong d ->
  to_ulong (to_ulong (last + d) - last) = d.
Proof.
  unfold is_ulong, to_ulong, ULONG_MOD. intros Hl Hd.
  rewrite Zminus_mod_idemp_l.
  replace (last + d - last) with d by lia.
  apply Z.mod_small. lia.
Qed.

(** X3.  After a frame of the right length arrived at [t_rx], the pass of
    the loop that reads the clock [d] ms later paints the dot green when
    [d < 1000] and red otherwise, whatever was received, and also when
    the clock wrapped between the two readings. *)
Theorem link_dot_after_arrival (buf : list byte) (t_rx d t_update : Z)
    (st : State) :
  is_ulong t_rx -> is_ulong d ->
  ui_link_dot (ui st) <> None ->
  ui_link_dot
    (ui (loop t_update (to_ulong (t_rx + d))
           (onDataRecv buf sizeof_DashPacket t_rx st)))
  = Some (if d <? 1000 then COLOR_GREEN else COLOR_RED).
Proof.
  intros Ht Hd Hdot.
  rewrite onDataRecv_accept
    by (reflexivity || (unfold is_int, INT_MIN, INT_MAX, sizeof_DashPacket;
                        lia)).
  unfold loop. cbn [hasNewData].
  set (s0 := set_hasNewData false _).
  destruct (updateUIFromData_frame t_update s0) as (_ & Hlast & Hd1).
  change (lastPacketMillis s0) with t_rx in Hlast.
  change (ui_link_dot (ui s0)) with (ui_link_dot (ui st)) in Hd1.
  unfold update_link_indicator. rewrite Hd1, Hlast.
  destruct (ui_link_dot (ui st)) as [c|]; [|contradiction].
  cbn [ui set_ui ui_link_dot set_link_dot]. unfold link_ok.
  rewrite elapsed_across_wrap by assumption. reflexivity.
Qed.

(** X4.  An update that runs [d] ms after the one that stored the
    timestamp adds the speed times [d / 3,600,000] hours, also when the
    clock wrapped in between: the integrator loses no time at the wrap. *)
Theorem trip_elapsed_across_wrap (d : Z) (st : State) :
  is_ulong (lastTripMillis st) -> lastTripMillis st <> 0 -> is_ulong d ->
  let speed := speedValue (rpm (read_DashPacket (latestData st))) in
  let now := to_ulong (lastTripMillis st + d) in
  totalDistanceKm (updateUIFromData now st)
  = f32_add (totalDistanceKm st)
      (f32_mul (f32_of_Z speed) (f32_div (f32_of_Z d) (f32_of_Z 3600000))).
Proof.
  intros Hl Hne Hd. cbv zeta.
  pose proof (updateUIFromData_trip
                (to_ulong (lastTripMillis st + d)) st) as Hu.
  cbv zeta in Hu. unfold trip_update, trip_hours in Hu.
  apply Z.eqb_neq in Hne. rewrite Hne in Hu.
  rewrite elapsed_across_wrap in Hu by assumption.
  apply pair_equal_spec in Hu. exact (proj2 Hu).
Qed.

(* ================================================================== *)
(** * Frames and passes of the loop *)
(* ================================================================== *)

Lemma update_link_indicator_frame (now : Z) (st : State) :
  let st' := update_link_indicator now st in
  telemetry (ui st') = telemetry (ui st) /\
  latestData st' = latestData st /\
  hasNewData st' = hasNewData st /\
  lastTripMillis st' = lastTripMillis st /\
  totalDistanceKm st' = totalDistanceKm st /\
  lastPacketMillis st' = lastPacketMillis st.
Proof.
  cbv zeta. unfold update_link_indicator.
  destruct (ui_link_dot (ui st)); repeat split.
Qed.

Lemma update_link_indicator_renders (f : list byte) (now : Z) (st : State) :
  renders f (ui st) -> renders f (ui (update_link_indicator now st)).
Proof.
  intros H. unfold update_link_indicator.
  destruct (ui_link_dot (ui st)); exact H.
Qed.

(** X5.  Latest wins: when two frames of the right length arrive before
    the loop runs, the pass draws every telemetry widget from the second
    one, the slot holds the second one, and the flag is down again; the
    first frame is never shown. *)
Theorem latest_frame_wins (A B : list byte) (tA tB t_update t_link : Z)
    (st : State) :
  List.length A = Z.to_nat sizeof_DashPacket ->
  List.length B = Z.to_nat sizeof_DashPacket ->
  List.length (latestData st) = Z.to_nat sizeof_DashPacket ->
  let st' :=
    loop t_update t_link
      (onDataRecv B sizeof_DashPacket tB
         (onDataRecv A sizeof_DashPacket tA st)) in
  renders B (ui st') /\
  latestData st' = B /\
  hasNewData st' = false /\
  lastPacketMillis st' = tB.
Proof.
  intros HA HB Hslot. cbv zeta.
  assert (Hint : is_int sizeof_DashPacket)
    by (unfold is_int, INT_MIN, INT_MAX, sizeof_DashPacket; lia).
  rewrite !onDataRecv_accept by (reflexivity || exact Hint).
  cbn [latestData lastTripMillis totalDistanceKm ui].
  rewrite (memcpy_whole _ A) by assumption.
  rewrite (memcpy_whole A B) by assumption.
  unfold loop. cbn [hasNewData].
  set (s0 := set_hasNewData false _).
  assert (Hs0 : latestData s0 = B) by reflexivity.
  pose proof (updateUIFromData_renders t_update s0) as Hr.
  destruct (updateUIFromData_frame t_update s0) as (Hf & Hl & Hd).
  pose proof (updateUIFromData_latestData t_update s0) as Hdata.
  rewrite Hs0 in Hr, Hdata.
  set (s1 := updateUIFromData t_update s0) in *.
  destruct (update_link_indicator_frame t_link s1)
    as (_ & H1 & H2 & _ & _ & H3).
  split; [|split; [|split]].
  - now apply update_link_indicator_renders.
  - rewrite H1. exact Hdata.
  - rewrite H2, Hf. reflexivity.
  - rewrite H3, Hl. reflexivity.
Qed.

(** X6.  Without a new frame the loop only repaints the dot: any number
    of passes leaves the eight telemetry widgets, the slot, the flag, the
    arrival time and the trip state (distance and timestamp) as they
    were, so the distance is integrated on new-data ticks only. *)
Theorem idle_passes_keep_telemetry (ticks : list (Z * Z)) (st : State) :
  hasNewData st = false ->
  let st' := run_loop ticks st in
  telemetry (ui st') = telemetry (ui st) /\
  latestData st' = latestData st /\
  hasNewData st' = false /\
  lastTripMillis st' = lastTripMillis st /\
  totalDistanceKm st' = totalDistanceKm st /\
  lastPacketMillis st' = lastPacketMillis st.
Proof.
  revert st. induction ticks as [|[tu tl] rest IH]; intros st Hflag;
    cbn [run_loop].
  - cbv zeta. repeat split. exact Hflag.
  - assert (Hloop : loop tu tl st = update_link_indicator tl st).
    { unfold loop. now rewrite Hflag. }
    rewrite Hloop.
    destruct (update_link_indicator_frame tl st)
      as (H1 & H2 & H3 & H4 & H5 & H6).
    destruct (IH (update_link_indicator tl st) ltac:(congruence))
      as (I1 & I2 & I3 & I4 & I5 & I6).
    cbv zeta. repeat split; congruence.
Qed.

Lemma update_battery_frame (st : State) :
  let st' := snd (update_battery st) in
  latestData st' = latestData st /\
  hasNewData st' = hasNewData st /\
  lastPacketMillis st' = lastPacketMillis st /\
  ui_link_dot (ui st') = ui_link_dot (ui st).
Proof. cbv zeta. unfold update_battery. cbn. repeat split. Qed.

(** A step of the loop itself never writes the slot or the arrival time,
    never raises the flag and never creates or removes the dot. *)
Lemma step_dispatch_frame (ev : event) (m m' : Machine) :
  is_dispatch ev = true -> step ev m = Some m' ->
  latestData (mstate m') = latestData (mstate m) /\
  lastPacketMillis (mstate m') = lastPacketMillis (mstate m) /\
  (hasNewData (mstate m') = true -> hasNewData (mstate m) = true) /\
  (ui_link_dot (ui (mstate m')) = None <->
   ui_link_dot (ui (mstate m)) = None).
Proof.
  intros Hd Hs. destruct m as [st p].
  destruct ev as [buf now| |now| | |now]; [discriminate Hd|..];
    unfold step in Hs; cbn [mstate mpc] in *;
    destruct p; try discriminate Hs.
  - destruct (hasNewData st) eqn:Hf; injection Hs as <-; cbn [mstate].
    + repeat split; auto.
    + rewrite Hf. repeat split; auto.
  - injection Hs as <-. cbn [mstate].
    destruct (update_speed_trip_shared now st) as [-> ->].
    unfold update_speed_trip.
    destruct (trip_update _ _ _ _) as [last' total']. cbn.
    repeat split; auto.
  - destruct (update_battery st) as [pct st1] eqn:E.
    injection Hs as <-. cbn [mstate].
    destruct (update_battery_frame st) as (H1 & H2 & H3 & H4).
    rewrite E in H1, H2, H3, H4. cbn [snd] in *.
    rewrite H1, H2, H3, H4. repeat split; auto.
  - injection Hs as <-. cbn. repeat split; auto.
  - injection Hs as <-. cbn [mstate]. unfold update_link_indicator.
    destruct (ui_link_dot (ui st)) eqn:E; cbn; rewrite ?E;
      repeat split; auto; discriminate.
Qed.

Lemma run_no_arrival_frame (tr : list event) (m m' : Machine) :
  no_arrival tr -> run tr m = Some m' ->
  latestData (mstate m') = latestData (mstate m) /\
  lastPacketMillis (mstate m') = lastPacketMillis (mstate m) /\
  (hasNewData (mstate m') = true -> hasNewData (mstate m) = true) /\
  (ui_link_dot (ui (mstate m')) = None <->
   ui_link_dot (ui (mstate m)) = None).
Proof.
  revert m. induction tr as [|ev tr IH]; intros m Hno Hrun.
  - injection Hrun as <-. repeat split; auto.
  - inversion Hno as [|? ? Hev Hrest]; subst.
    cbn [run] in Hrun. destruct (step ev m) as [m1|] eqn:E; [|discriminate].
    destruct (IH m1 Hrest Hrun) as (I1 & I2 & I3 & I4).
    assert (Hstep : latestData (mstate m1) = latestData (mstate m) /\
                    lastPacketMillis (mstate m1) = lastPacketMillis (mstate m)
                    /\ (hasNewData (mstate m1) = true ->
                        hasNewData (mstate m) = true) /\
                    (ui_link_dot (ui (mstate m1)) = None <->
                     ui_link_dot (ui (mstate m)) = None)).
    { destruct (is_dispatch ev) eqn:Hd.
      - now apply (step_dispatch_frame ev).
      - destruct ev; try discriminate Hd.
        apply (step_Recv_rejected _ _ _ _ Hev) in E. subst m1.
        repeat split; auto. }
    destruct Hstep as (S1 & S2 & S3 & S4).
    rewrite I1, I2, I4, S1, S2, S4. repeat split; auto.
Qed.

(** X7.  Frames of a wrong length, however they interleave with the
    loop, never overwrite the slot, never raise the flag and never
    refresh the arrival time: the colour the loop paints next is decided
    by the last valid arrival alone, so a stream of malformed frames does
    not keep the link indicator green. *)
Theorem malformed_frames_keep_nothing_alive (tr : list event) (now : Z)
    (m m' : Machine) :
  no_arrival tr ->
  ui_link_dot (ui (mstate m)) <> None ->
  run (tr ++ [Link now])%list m = Some m' ->
  latestData (mstate m') = latestData (mstate m) /\
  lastPacketMillis (mstate m') = lastPacketMillis (mstate m) /\
  (hasNewData (mstate m') = true -> hasNewData (mstate m) = true) /\
  ui_link_dot (ui (mstate m'))
  = Some (if link_ok now (lastPacketMillis (mstate m))
          then COLOR_GREEN else COLOR_RED).
Proof.
  intros Hno Hdot Hrun. rewrite run_app in Hrun.
  destruct (run tr m) as [m1|] eqn:E; [|discriminate].
  destruct (run_no_arrival_frame tr m m1 Hno E) as (H1 & H2 & H3 & H4).
  cbn [run] in Hrun. destruct (step (Link now) m1) as [m2|] eqn:E2;
    [|discriminate]. injection Hrun as <-.
  unfold step in E2. destruct (mpc m1); try discriminate E2.
  injection E2 as <-. cbn [mstate].
  destruct (update_link_indicator_frame now (mstate m1))
    as (_ & F1 & F2 & _ & _ & F3).
  rewrite F1, F2, F3, H1, H2.
  split; [reflexivity|]. split; [reflexivity|]. split; [exact H3|].
  unfold update_link_indicator.
  destruct (ui_link_dot (ui (mstate m1))) as [c|] eqn:Ed.
  - cbn. rewrite H2. reflexivity.
  - exfalso. apply Hdot. now apply H4.
Qed.

(* ================================================================== *)
(** * The display flush callback *)
(* ================================================================== *)

(** X8.  For every area on the 320x170 screen [my_disp_flush] opens a
    window of the area's width and height and pushes exactly one colour
    per pixel of it: the 32-bit product does not wrap, and the count is at
    least 1 and at most 54400. *)
Theorem my_disp_flush_pixel_count (area : lv_area_t) :
  0 <= x1 area <= x2 area -> x2 area < screenWidth ->
  0 <= y1 area <= y2 area -> y2 area < screenHeight ->
  let c := my_disp_flush area in
  win_x c = x1 area /\ win_y c = y1 area /\
  win_w c = x2 area - x1 area + 1 /\
  win_h c = y2 area - y1 area + 1 /\
  push_len c = (x2 area - x1 area + 1) * (y2 area - y1 area + 1) /\
  1 <= push_len c <= screenWidth * screenHeight.
Proof.
  unfold screenWidth, screenHeight. intros Hx Hx2 Hy Hy2. cbv zeta.
  unfold my_disp_flush. cbn [win_x win_y win_w win_h push_len].
  rewrite (to_ulong_small (x2 area - x1 area + 1))
    by (unfold is_ulong, ULONG_MOD; lia).
  rewrite (to_ulong_small (y2 area - y1 area + 1))
    by (unfold is_ulong, ULONG_MOD; lia).
  assert (Hp : 1 <= (x2 area - x1 area + 1) * (y2 area - y1 area + 1)
               <= 320 * 170) by nia.
  rewrite to_ulong_small by (unfold is_ulong, ULONG_MOD; lia).
  repeat split; lia.
Qed.

(* ================================================================== *)
(** * Rounding in binary32 *)
(* ================================================================== *)

Lemma fexp_eq (z : Z) : fexp prec emax z = Z.max (z - 24) (-149).
Proof. reflexivity. Qed.

Lemma Zdigits2_nonneg (m : Z) : 0 <= Zdigits2 m.
Proof. destruct m; cbn; lia. Qed.

Lemma Zdigits2_bounds (m : Z) :
  0 < m -> 2 ^ (Zdigits2 m - 1) <= m < 2 ^ Zdigits2 m.
Proof.
  destruct m as [|p|p]; try lia. intros _. apply digits2_pos_bounds.
Qed.

Lemma Zdigits2_upper (m d : Z) :
  0 <= m -> 0 <= d -> m < 2 ^ d -> Zdigits2 m <= d.
Proof.
  intros Hm Hd Hlt. destruct (Z.eq_dec m 0) as [->|Hne]; [cbn; lia|].
  pose proof (Zdigits2_bounds m ltac:(lia)) as [Hlo _].
  destruct (Z_le_gt_dec (Zdigits2 m) d) as [|Hgt]; [assumption|].
  assert (2 ^ d <= 2 ^ (Zdigits2 m - 1)) by (apply Z.pow_le_mono_r; lia).
  lia.
Qed.

Lemma Zdigits2_lower (m d : Z) :
  0 <= d -> 2 ^ d <= m -> d + 1 <= Zdigits2 m.
Proof.
  intros Hd Hle.
  assert (0 < 2 ^ d) by (apply Z.pow_pos_nonneg; lia).
  pose proof (Zdigits2_bounds m ltac:(lia)) as [_ Hhi].
  pose proof (Zdigits2_nonneg m).
  destruct (Z_le_gt_dec (d + 1) (Zdigits2 m)) as [|Hgt]; [assumption|].
  assert (2 ^ Zdigits2 m <= 2 ^ d) by (apply Z.pow_le_mono_r; lia).
  lia.
Qed.

Lemma Zdigits2_le (a b : Z) : 0 <= a <= b -> Zdigits2 a <= Zdigits2 b.
Proof.
  intros [Ha Hab]. destruct (Z.eq_dec b 0) as [->|Hb].
  - assert (a = 0) by lia. subst. lia.
  - apply Zdigits2_upper; [assumption | apply Zdigits2_nonneg|].
    pose proof (Zdigits2_bounds b ltac:(lia)). lia.
Qed.

(** One step of the right shift halves the mantissa. *)
Lemma shr_1_m (mrs : shr_record) :
  0 <= shr_m mrs -> shr_m (shr_1 mrs) = shr_m mrs / 2.
Proof.
  destruct mrs as [m r s]. cbn [shr_m]. intros Hm.
  destruct m as [|p|p]; [reflexivity| |lia].
  destruct p as [p|p|]; cbn [shr_1 shr_m].
  - rewrite Pos2Z.inj_xI.
    apply Z.div_unique with (r := 1); lia.
  - rewrite Pos2Z.inj_xO.
    apply Z.div_unique with (r := 0); lia.
  - reflexivity.
Qed.

Lemma shr_iter_m (p : positive) (mrs : shr_record) :
  0 <= shr_m mrs ->
  shr_m (iter_pos shr_1 p mrs) = shr_m mrs / 2 ^ Zpos p.
Proof.
  revert mrs. induction p as [p IH|p IH|]; intros mrs Hm; cbn [iter_pos].
  - assert (H1 : 0 <= shr_m (shr_1 mrs))
      by (rewrite shr_1_m by assumption; apply Z.div_pos; lia).
    assert (H2 : 0 <= shr_m (iter_pos shr_1 p (shr_1 mrs))).
    { rewrite IH by assumption. apply Z.div_pos; [assumption|].
      apply Z.pow_pos_nonneg; lia. }
    rewrite IH, IH, shr_1_m by assumption.
    assert (0 < 2 ^ Zpos p) by (apply Z.pow_pos_nonneg; lia).
    rewrite !Z.div_div by lia.
    assert (Hpow : 2 ^ Zpos p~1 = 2 * (2 ^ Zpos p * 2 ^ Zpos p)).
    { rewrite <- Z.pow_add_r, <- Z.pow_succ_r by lia. f_equal. lia. }
    rewrite Hpow. reflexivity.
  - assert (H2 : 0 <= shr_m (iter_pos shr_1 p mrs)).
    { rewrite IH by assumption. apply Z.div_pos; [assumption|].
      apply Z.pow_pos_nonneg; lia. }
    rewrite IH, IH by assumption.
    assert (0 < 2 ^ Zpos p) by (apply Z.pow_pos_nonneg; lia).
    rewrite Z.div_div by lia.
    assert (Hpow : 2 ^ Zpos p~0 = 2 ^ Zpos p * 2 ^ Zpos p).
    { rewrite <- Z.pow_add_r by lia. f_equal. lia. }
    rewrite Hpow. reflexivity.
  - now rewrite shr_1_m.
Qed.

(** The right shift to the exponent of the format: the mantissa is
    divided by [2^k], the exponent grows by [k]. *)
Lemma shr_fexp_m (m e : Z) (l : location) :
  0 <= m ->
  let k := Z.max 0 (fexp prec emax (Zdigits2 m + e) - e) in
  shr_m (fst (shr_fexp prec emax m e l)) = m / 2 ^ k /\
  snd (shr_fexp prec emax m e l) = e + k.
Proof.
  intros Hm. cbv zeta. unfold shr_fexp, shr.
  assert (Hr : shr_m (shr_record_of_loc m l) = m)
    by (destruct l as [|[]]; reflexivity).
  destruct (fexp prec emax (Zdigits2 m + e) - e) as [|p|p] eqn:E;
    cbn [fst snd].
  - rewrite Hr. cbn. rewrite Z.div_1_r. split; [reflexivity | lia].
  - rewrite shr_iter_m by (rewrite Hr; assumption). rewrite Hr.
    rewrite Z.max_r by lia. split; reflexivity.
  - rewrite Hr. rewrite Z.max_l by lia. cbn. rewrite Z.div_1_r.
    split; [reflexivity | lia].
Qed.

Lemma round_nearest_even_bounds (m : Z) (l : location) :
  m <= round_nearest_even m l <= m + 1.
Proof.
  unfold round_nearest_even. destruct l as [|[]]; try lia.
  destruct (Z.even m); lia.
Qed.

(** Rounding a non-negative mantissa: after the shift by [k] to the
    exponent of the format the mantissa [mx / 2^k] is kept or
    incremented, and the result has exactly that value. *)
Lemma binary_round_aux_pos (mx ex : Z) (lx : location) :
  0 <= mx ->
  let k := Z.max 0 (fexp prec emax (Zdigits2 mx + ex) - ex) in
  exists m1,
    mx / 2 ^ k <= m1 <= mx / 2 ^ k + 1 /\
    -149 <= ex + k /\
    rounded_to m1 (ex + k) (binary_round_aux prec emax false mx ex lx).
Proof.
  intros Hmx. cbv zeta.
  set (k := Z.max 0 (fexp prec emax (Zdigits2 mx + ex) - ex)).
  assert (Hk0 : 0 <= k) by (unfold k; lia).
  assert (Hk : Zdigits2 mx - 24 <= k /\ -149 <= ex + k).
  { unfold k. rewrite fexp_eq. lia. }
  destruct Hk as [Hk24 Hemin].
  assert (Hpk : 0 < 2 ^ k) by (apply Z.pow_pos_nonneg; lia).
  assert (Hm' : 0 <= mx / 2 ^ k < 2 ^ 24).
  { split; [apply Z.div_pos; lia|].
    apply Z.div_lt_upper_bound; [lia|].
    destruct (Z.eq_dec mx 0) as [->|Hne].
    - assert (0 < 2 ^ 24) by reflexivity. nia.
    - pose proof (Zdigits2_bounds mx ltac:(lia)) as [_ Hhi].
      pose proof (Zdigits2_nonneg mx).
      assert (2 ^ Zdigits2 mx <= 2 ^ (k + 24))
        by (apply Z.pow_le_mono_r; lia).
      rewrite Z.pow_add_r in * by lia. lia. }
  unfold binary_round_aux.
  pose proof (shr_fexp_m mx ex lx Hmx) as [Hs1 He1]. fold k in Hs1, He1.
  destruct (shr_fexp prec emax mx ex lx) as [mrs' e'] eqn:E1.
  cbn [fst snd] in Hs1, He1. subst e'.
  set (m1 := round_nearest_even (shr_m mrs') (loc_of_shr_record mrs')).
  pose proof (round_nearest_even_bounds (shr_m mrs')
                (loc_of_shr_record mrs')) as Hm1. fold m1 in Hm1.
  rewrite Hs1 in Hm1.
  assert (Hm1nn : 0 <= m1) by lia.
  pose proof (shr_fexp_m m1 (ex + k) loc_Exact Hm1nn) as [Hs2 He2].
  destruct (shr_fexp prec emax m1 (ex + k) loc_Exact) as [mrs'' e''] eqn:E2.
  cbn [fst snd] in Hs2, He2.
  exists m1. split; [exact Hm1|]. split; [exact Hemin|].
  change (emax - prec) with 104.
  destruct (Z.eq_dec m1 (2 ^ 24)) as [Hfull|Hnot].
  - (* the increment carried into a 25th bit *)
    assert (Hk2 : Z.max 0 (fexp prec emax (Zdigits2 m1 + (ex + k))
                           - (ex + k)) = 1).
    { rewrite Hfull. change (Zdigits2 (2 ^ 24)) with 25.
      rewrite fexp_eq. lia. }
    rewrite Hk2 in Hs2, He2. rewrite Hfull in Hs2.
    change (2 ^ 24 / 2 ^ 1) with (Zpos 8388608) in Hs2.
    rewrite Hs2. right. exists 8388608%positive, e''. subst e''.
    split; [lia|]. split.
    { replace (ex + k + 1 - (ex + k)) with 1 by lia. rewrite Hfull.
      reflexivity. }
    split; [lia|]. split.
    { unfold f32_fits. change (Zpos (digits2_pos 8388608)) with 24.
      rewrite fexp_eq. apply Z.leb_le. lia. }
    destruct (Z.leb_spec (ex + k + 1) 104); [left | right]; split;
      (lia || reflexivity).
  - assert (Hlt : m1 < 2 ^ 24) by lia.
    assert (Hd : Zdigits2 m1 <= 24) by (apply Zdigits2_upper; lia).
    assert (Hk2 : Z.max 0 (fexp prec emax (Zdigits2 m1 + (ex + k))
                           - (ex + k)) = 0).
    { rewrite fexp_eq. lia. }
    rewrite Hk2 in Hs2, He2. change (2 ^ 0) with 1 in Hs2.
    rewrite Z.div_1_r in Hs2. rewrite Z.add_0_r in He2. subst e''.
    rewrite Hs2.
    destruct m1 as [|p|p] eqn:Ep; [left; split; reflexivity | | lia].
    right. exists p, (ex + k).
    split; [lia|]. split.
    { rewrite Z.sub_diag. change (2 ^ 0) with 1. lia. }
    split; [lia|]. split.
    { unfold f32_fits. rewrite fexp_eq. apply Z.leb_le.
      change (Zpos (digits2_pos p)) with (Zdigits2 (Zpos p)). lia. }
    destruct (Z.leb_spec (ex + k) 104); [left | right]; split;
      (lia || reflexivity).
Qed.

Lemma Zdigits2_unique (m d : Z) :
  0 < d -> 2 ^ (d - 1) <= m < 2 ^ d -> Zdigits2 m = d.
Proof.
  intros Hd [Hlo Hhi].
  assert (0 < 2 ^ (d - 1)) by (apply Z.pow_pos_nonneg; lia).
  pose proof (Zdigits2_upper m d ltac:(lia) ltac:(lia) Hhi).
  pose proof (Zdigits2_lower m (d - 1) ltac:(lia) Hlo). lia.
Qed.

Lemma Zdigits2_mul_pow2 (m j : Z) :
  0 < m -> 0 <= j -> Zdigits2 (m * 2 ^ j) = Zdigits2 m + j.
Proof.
  intros Hm Hj. pose proof (Zdigits2_bounds m Hm) as [Hlo Hhi].
  pose proof (Zdigits2_nonneg m) as Hd.
  assert (Hd1 : 1 <= Zdigits2 m).
  { destruct m; try lia. cbn. lia. }
  assert (0 < 2 ^ j) by (apply Z.pow_pos_nonneg; lia).
  apply Zdigits2_unique; [lia|].
  replace (Zdigits2 m + j - 1) with (Zdigits2 m - 1 + j) by lia.
  rewrite !Z.pow_add_r by lia. nia.
Qed.

Lemma Pos_iter_xO (m d : positive) :
  Zpos (Pos.iter xO m d) = Zpos m * 2 ^ Zpos d.
Proof.
  induction d as [|d IH] using Pos.peano_ind.
  - cbn [Pos.iter]. rewrite Pos2Z.inj_xO. change (2 ^ 1) with 2. lia.
  - rewrite Pos.iter_succ, Pos2Z.inj_xO, IH, Pos2Z.inj_succ.
    rewrite Z.pow_succ_r by lia. lia.
Qed.

(** Aligning to a lower exponent keeps the value. *)
Lemma shl_align_spec (mx : positive) (ex ex' : Z) :
  snd (shl_align mx ex ex') = Z.min ex ex' /\
  Zpos (fst (shl_align mx ex ex'))
  = Zpos mx * 2 ^ (ex - Z.min ex ex').
Proof.
  unfold shl_align. destruct (ex' - ex) as [|d|d] eqn:E; cbn [fst snd].
  - rewrite Z.min_l by lia. rewrite Z.sub_diag. change (2 ^ 0) with 1.
    lia.
  - rewrite Z.min_l by lia. rewrite Z.sub_diag. change (2 ^ 0) with 1.
    lia.
  - rewrite Z.min_r by lia. rewrite Pos_iter_xO.
    replace (ex - ex') with (Zpos d) by lia. split; reflexivity.
Qed.

(** Rounding a positive integer mantissa at the exponent [ex]: the value
    is taken to the exponent [E] of the format, exactly when [E <= ex]
    is possible, and otherwise by dropping [E - ex] bits and keeping or
    incrementing what is left. *)
Lemma binary_round_pos (mx : positive) (ex : Z) :
  let E := fexp prec emax (Zdigits2 (Zpos mx) + ex) in
  exists m1,
    -149 <= E /\
    rounded_to m1 E (binary_round prec emax false mx ex) /\
    (E <= ex -> Zpos mx * 2 ^ (ex - E) <= m1) /\
    (ex <= E ->
     Zpos mx / 2 ^ (E - ex) <= m1 <= Zpos mx / 2 ^ (E - ex) + 1).
Proof.
  cbv zeta. set (E := fexp prec emax (Zdigits2 (Zpos mx) + ex)).
  unfold binary_round.
  change (Zpos (digits2_pos mx)) with (Zdigits2 (Zpos mx)). fold E.
  pose proof (shl_align_spec mx ex E) as [Hez Hmz].
  destruct (shl_align mx ex E) as [mz ez] eqn:Es.
  cbn [fst snd] in Hez, Hmz.
  assert (Hj : 0 <= ex - ez) by lia.
  assert (Hdig : Zdigits2 (Zpos mz) + ez = Zdigits2 (Zpos mx) + ex).
  { rewrite Hmz, Zdigits2_mul_pow2 by lia. lia. }
  destruct (binary_round_aux_pos (Zpos mz) ez loc_Exact ltac:(lia))
    as (m1 & Hm1 & Hemin & Hround).
  rewrite Hdig in Hm1, Hemin, Hround. fold E in Hm1, Hemin, Hround.
  assert (Hk : ez + Z.max 0 (E - ez) = E) by lia.
  rewrite Hk in Hemin, Hround.
  exists m1. split; [exact Hemin|]. split; [exact Hround|].
  clear Hround Es Hdig. clearbody E. split.
  - intros Hle.
    assert (Hz : Z.max 0 (E - ez) = 0) by (clear - Hez Hle; lia).
    assert (Hx : ex - Z.min ex E = ex - E) by (clear - Hle; lia).
    rewrite Hz in Hm1. rewrite Hx in Hmz.
    change (2 ^ 0) with 1 in Hm1. rewrite Z.div_1_r, Hmz in Hm1.
    exact (proj1 Hm1).
  - intros Hle.
    assert (Hz : Z.max 0 (E - ez) = E - ex) by (clear - Hez Hle; lia).
    assert (Hx : ex - Z.min ex E = 0) by (clear - Hle; lia).
    rewrite Hz in Hm1. rewrite Hx in Hmz. change (2 ^ 0) with 1 in Hmz.
    rewrite Z.mul_1_r in Hmz. rewrite Hmz in Hm1. exact Hm1.
Qed.

Lemma rounded_to_distance (m1 e' : Z) (out : float32) :
  rounded_to m1 e' out -> is_distance out = true.
Proof.
  intros [[_ ->]|(m'' & e'' & _ & _ & _ & Hfit & [[_ ->]|[_ ->]])];
    (reflexivity || exact Hfit).
Qed.

(** The conversion of a 32-bit count never overflows. *)
Lemma f32_of_Z_count (z : Z) :
  0 <= z < 2 ^ 32 -> is_count (f32_of_Z z) = true.
Proof.
  intros Hz. unfold f32_of_Z, binary_normalize.
  destruct z as [|p|p]; [reflexivity| |lia].
  destruct (binary_round_pos p 0) as (m1 & _ & Hround & _).
  assert (Hd : Zdigits2 (Zpos p) <= 32)
    by (apply Zdigits2_upper; lia).
  assert (HE : fexp prec emax (Zdigits2 (Zpos p) + 0) <= 8)
    by (rewrite fexp_eq; lia).
  destruct Hround
    as [[_ ->]|(m'' & e'' & _ & _ & He & Hfit & [[_ ->]|[Hbig _]])].
  - reflexivity.
  - cbn [is_count]. rewrite Hfit. apply Z.leb_le. lia.
  - lia.
Qed.

Lemma fits_digits (m : positive) (e : Z) :
  f32_fits m e = true -> Zdigits2 (Zpos m) <= 24 /\ -149 <= e.
Proof.
  unfold f32_fits. rewrite fexp_eq. intros H. apply Z.leb_le in H.
  change (Zpos (digits2_pos m)) with (Zdigits2 (Zpos m)) in H. lia.
Qed.

(** The quotient and exponent that the division hands to the rounding. *)
Lemma SFdiv_core_binary_spec (m1 m2 : positive) (e1 e2 : Z) :
  exists q e' l,
    SFdiv_core_binary prec emax (Zpos m1) e1 (Zpos m2) e2 = (q, e', l) /\
    0 <= q /\ e' <= e1 - e2 /\
    Zdigits2 q + e' <= Zdigits2 (Zpos m1) + (e1 - e2).
Proof.
  unfold SFdiv_core_binary.
  set (e' := Z.min _ (e1 - e2)).
  assert (He' : e' <= e1 - e2) by (unfold e'; lia).
  set (m' := match e1 - e2 - e' with
             | 0 => Zpos m1
             | Zpos _ => Z.shiftl (Zpos m1) (e1 - e2 - e')
             | Zneg _ => 0
             end).
  assert (Hm' : m' = Zpos m1 * 2 ^ (e1 - e2 - e')).
  { unfold m'. destruct (e1 - e2 - e') as [|p|p] eqn:E.
    - change (2 ^ 0) with 1. lia.
    - apply Z.shiftl_mul_pow2. lia.
    - lia. }
  clearbody m' e'.
  pose proof (Z.div_eucl_eq m' (Zpos m2) ltac:(lia)) as Heq.
  pose proof (Z.mod_pos_bound m' (Zpos m2) ltac:(lia)) as Hmod.
  unfold Z.modulo in Hmod.
  destruct (Z.div_eucl m' (Zpos m2)) as [q r].
  exists q, e', (new_location (Zpos m2) r).
  split; [reflexivity|].
  assert (Hp : 0 < 2 ^ (e1 - e2 - e')) by (apply Z.pow_pos_nonneg; lia).
  assert (Hm'pos : 0 < m') by (rewrite Hm'; lia).
  assert (Hq : 0 <= q <= m') by (clear - Heq Hmod Hm'pos; nia).
  split; [lia|]. split; [exact He'|].
  pose proof (Zdigits2_le q m' Hq) as Hle.
  rewrite Hm', Zdigits2_mul_pow2 in Hle by lia. lia.
Qed.

(** The elapsed hours are a finite distance: the division of a count by
    3,600,000 neither overflows nor gives NaN. *)
Lemma f32_div_hours (x : float32) :
  is_count x = true ->
  is_finite_distance (f32_div x (f32_of_Z 3600000)) = true.
Proof.
  change (f32_of_Z 3600000) with (S754_finite false 14400000 (-2)).
  destruct x as [[]|[]| |[] mx ex]; try discriminate; [reflexivity|].
  cbn [is_count]. intros H. apply andb_prop in H as [Hfit He].
  apply Z.leb_le in He. apply fits_digits in Hfit as [Hd _].
  unfold f32_div, SFdiv.
  destruct (SFdiv_core_binary_spec mx 14400000 ex (-2))
    as (q & e' & l & -> & Hq & He' & Hdq).
  cbn [xorb].
  destruct (binary_round_aux_pos q e' l Hq) as (m1 & _ & _ & Hround).
  assert (Hk : e' + Z.max 0 (fexp prec emax (Zdigits2 q + e') - e') <= 11)
    by (rewrite fexp_eq; lia).
  destruct Hround
    as [[_ ->]|(m'' & e'' & _ & _ & Hee & Hfit & [[_ ->]|[Hbig _]])].
  - reflexivity.
  - exact Hfit.
  - lia.
Qed.

Lemma f32_mul_distance (x y : float32) :
  is_finite_distance x = true -> is_finite_distance y = true ->
  is_distance (f32_mul x y) = true.
Proof.
  destruct x as [[]|[]| |[] mx ex]; try discriminate;
    destruct y as [[]|[]| |[] my ey]; try discriminate;
    intros Hx Hy; try reflexivity.
  unfold f32_mul, SFmul. cbn [xorb].
  destruct (binary_round_aux_pos (Zpos (mx * my)) (ex + ey) loc_Exact
              ltac:(lia)) as (m1 & _ & _ & Hround).
  exact (rounded_to_distance _ _ _ Hround).
Qed.

(** Dropping the low [k] bits of [M] does not go below a multiple of
    [2^k] that [M] reaches. *)
Lemma floor_grid_multiple (X M k j : Z) :
  0 <= k -> X = j * 2 ^ k -> X <= M -> X <= M / 2 ^ k * 2 ^ k.
Proof.
  intros Hk -> Hle.
  assert (Hp : 0 < 2 ^ k) by (apply Z.pow_pos_nonneg; lia).
  assert (j <= M / 2 ^ k) by (apply Z.div_le_lower_bound; lia).
  nia.
Qed.

(** Nor below a number with fewer binary digits than [M], as long as one
    digit of [M] is left. *)
Lemma floor_grid_binade (X M k : Z) :
  0 < X <= M -> 0 <= k <= Zdigits2 M - 1 -> Zdigits2 X < Zdigits2 M ->
  X <= M / 2 ^ k * 2 ^ k.
Proof.
  intros [HX HXM] Hk Hd.
  pose proof (Zdigits2_bounds X HX) as [_ HXhi].
  assert (HM : 0 < M) by lia.
  pose proof (Zdigits2_bounds M HM) as [HMlo _].
  assert (Hpow : 2 ^ Zdigits2 X <= 2 ^ (Zdigits2 M - 1))
    by (apply Z.pow_le_mono_r; lia).
  assert (Hgrid : 2 ^ (Zdigits2 M - 1) <= M / 2 ^ k * 2 ^ k).
  { apply (floor_grid_multiple _ M k (2 ^ (Zdigits2 M - 1 - k)));
      [lia | | exact HMlo].
    rewrite <- Z.pow_add_r by lia. f_equal. lia. }
  lia.
Qed.

(** The sum of two positive numbers of the format, rounded: a distance
    that is not below the first summand. *)
Lemma f32_add_finite_le (mx my : positive) (ex ey : Z) :
  f32_fits mx ex = true -> f32_fits my ey = true ->
  let r := f32_add (S754_finite false mx ex) (S754_finite false my ey) in
  is_distance r = true /\ distance_le (S754_finite false mx ex) r.
Proof.
  intros Hfx Hfy. cbv zeta.
  pose proof (fits_digits mx ex Hfx) as [Hdx Hex].
  pose proof (fits_digits my ey Hfy) as [_ Hey].
  unfold f32_fits in Hfx. rewrite fexp_eq in Hfx. apply Z.leb_le in Hfx.
  change (Zpos (digits2_pos mx)) with (Zdigits2 (Zpos mx)) in Hfx.
  unfold f32_add, SFadd. cbn [cond_Zopp].
  set (ez := Z.min ex ey).
  pose proof (shl_align_spec mx ex ez) as [_ HX].
  pose proof (shl_align_spec my ey ez) as [_ HY].
  replace (Z.min ex ez) with ez in HX by (unfold ez; lia).
  replace (Z.min ey ez) with ez in HY by (unfold ez; lia).
  set (px := fst (shl_align mx ex ez)) in *.
  set (py := fst (shl_align my ey ez)) in *.
  change (Zpos px + Zpos py) with (Zpos (px + py)).
  cbn [binary_normalize].
  assert (Hez : -149 <= ez <= ex) by (unfold ez; lia).
  clearbody ez px py.
  destruct (binary_round_pos (px + py) ez)
    as (m1 & HE & Hround & Hexact & Hshift).
  set (E := fexp prec emax (Zdigits2 (Zpos (px + py)) + ez)) in *.
  assert (HEdef : E = Z.max (Zdigits2 (Zpos (px + py)) + ez - 24) (-149))
    by (unfold E; apply fexp_eq).
  set (M := Zpos (px + py)) in *.
  assert (HM : Zpos px <= M) by (unfold M; lia).
  split; [exact (rounded_to_distance _ _ _ Hround)|].
  (* the value of the result, against the first summand *)
  assert (Hval : Zpos mx * 2 ^ (ex + 149) <= m1 * 2 ^ (E + 149)).
  { assert (HXs : Zpos mx * 2 ^ (ex + 149) = Zpos px * 2 ^ (ez + 149)).
    { rewrite HX, <- Z.mul_assoc, <- Z.pow_add_r by lia.
      do 2 f_equal. lia. }
    rewrite HXs.
    assert (Hpz : 0 < 2 ^ (ez + 149)) by (apply Z.pow_pos_nonneg; lia).
    destruct (Z_le_gt_dec E ez) as [Hle|Hgt].
    - specialize (Hexact Hle).
      replace (ez + 149) with (ez - E + (E + 149)) by lia.
      rewrite Z.pow_add_r by lia.
      assert (0 < 2 ^ (E + 149)) by (apply Z.pow_pos_nonneg; lia).
      assert (0 < 2 ^ (ez - E)) by (apply Z.pow_pos_nonneg; lia).
      rewrite Z.mul_assoc.
      apply Z.mul_le_mono_nonneg_r; [lia|].
      apply Z.le_trans with (M * 2 ^ (ez - E)); [|exact Hexact].
      apply Z.mul_le_mono_nonneg_r; [lia | exact HM].
    - specialize (Hshift ltac:(lia)). destruct Hshift as [Hlo _].
      set (k := E - ez) in *.
      assert (Hk0 : 0 < k) by (unfold k; lia).
      assert (HEk : E + 149 = k + (ez + 149)) by (unfold k; lia).
      assert (Hgrid : Zpos px <= M / 2 ^ k * 2 ^ k).
      { destruct (Z_le_gt_dec E ex) as [HEx|HEx].
        - apply (floor_grid_multiple _ M k (Zpos mx * 2 ^ (ex - ez - k)));
            [unfold k; lia | | exact HM].
          rewrite HX, <- Z.mul_assoc, <- Z.pow_add_r by (unfold k; lia).
          do 2 f_equal. lia.
        - assert (Hdig : Zdigits2 (Zpos px) = Zdigits2 (Zpos mx) + (ex - ez))
            by (rewrite HX; apply Zdigits2_mul_pow2; lia).
          apply floor_grid_binade; [lia | unfold k; lia | lia]. }
      rewrite HEk.
      rewrite (Z.pow_add_r 2 k (ez + 149)) by (clear - Hk0 Hez; lia).
      assert (Hpk : 0 < 2 ^ k)
        by (apply Z.pow_pos_nonneg; clear - Hk0; lia).
      rewrite Z.mul_assoc.
      apply Z.mul_le_mono_nonneg_r; [lia|].
      apply Z.le_trans with (M / 2 ^ k * 2 ^ k); [exact Hgrid|].
      apply Z.mul_le_mono_nonneg_r; [lia | exact Hlo]. }
  destruct Hround
    as [[H0 ->]|(m'' & e'' & Hpos & Hm'' & Hee & _ & [[_ ->]|[_ ->]])].
  - exfalso. subst m1.
    assert (0 < 2 ^ (ex + 149)) by (apply Z.pow_pos_nonneg; lia).
    clear - Hval H. nia.
  - cbn [distance_le f32_exact cond_Zopp].
    replace (e'' + 149) with (e'' - E + (E + 149)) by lia.
    rewrite (Z.pow_add_r 2 (e'' - E) (E + 149)) by lia.
    rewrite Z.mul_assoc, Hm''. exact Hval.
  - exact I.
Qed.

Lemma f32_exact_nonneg (x : float32) :
  is_distance x = true -> 0 <= f32_exact x.
Proof.
  destruct x as [s|s| |s m e]; cbn [f32_exact]; try lia.
  destruct s; [discriminate|]. intros _. cbn [cond_Zopp].
  apply Z.mul_nonneg_nonneg; [lia | apply Z.pow_nonneg; lia].
Qed.

Lemma distance_le_refl (x : float32) :
  is_distance x = true -> distance_le x x.
Proof.
  destruct x as [[]|[]| |[] m e]; try discriminate; intros _;
    cbn [distance_le]; try exact I; lia.
Qed.

Lemma distance_le_trans (x y z : float32) :
  distance_le x y -> distance_le y z -> distance_le x z.
Proof.
  destruct z as [sz|sz| |sz mz ez]; destruct y as [sy|sy| |sy my ey];
    destruct x as [sx|sx| |sx mx ex]; cbn [distance_le];
    try tauto; try lia.
Qed.

(** Adding a distance to a distance gives a distance that is not below
    the first. *)
Lemma f32_add_distance (x y : float32) :
  is_distance x = true -> is_distance y = true ->
  is_distance (f32_add x y) = true /\ distance_le x (f32_add x y).
Proof.
  intros Hx Hy.
  destruct x as [[]|[]| |[] mx ex]; try discriminate Hx;
    destruct y as [[]|[]| |[] my ey]; try discriminate Hy.
  - split; [reflexivity | cbn; lia].
  - split; [reflexivity | exact I].
  - split; [exact Hy|]. cbn [f32_add SFadd distance_le f32_exact].
    exact (f32_exact_nonneg (S754_finite false my ey) Hy).
  - split; [reflexivity | exact I].
  - split; [reflexivity | exact I].
  - split; [reflexivity | exact I].
  - split; [exact Hx|]. cbn [f32_add SFadd distance_le]. lia.
  - split; [reflexivity | exact I].
  - now apply f32_add_finite_le.
Qed.

Lemma is_count_finite (x : float32) :
  is_count x = true -> is_finite_distance x = true.
Proof.
  destruct x as [[]|[]| |[] m e]; try discriminate; cbn;
    [reflexivity|]. intros H. now apply andb_prop in H as [H _].
Qed.

Lemma trip_hours_finite (now last : Z) :
  is_finite_distance (trip_hours now last) = true.
Proof.
  unfold trip_hours. apply f32_div_hours, f32_of_Z_count.
  unfold to_ulong, ULONG_MOD. apply Z.mod_pos_bound. lia.
Qed.

(** What an update adds is a distance. *)
Lemma trip_increment_distance (speed now last : Z) :
  0 <= speed <= 250 ->
  is_distance (f32_mul (f32_of_Z speed) (trip_hours now last)) = true.
Proof.
  intros Hs. apply f32_mul_distance.
  - apply is_count_finite, f32_of_Z_count. lia.
  - apply trip_hours_finite.
Qed.

Lemma trip_update_distance (speed now last : Z) (total : float32) :
  0 <= speed <= 250 -> is_distance total = true ->
  is_distance (snd (trip_update speed now last total)) = true /\
  distance_le total (snd (trip_update speed now last total)).
Proof.
  intros Hs Ht. unfold trip_update. destruct (last =? 0); cbn [snd].
  - split; [exact Ht | now apply distance_le_refl].
  - apply f32_add_distance; [exact Ht|].
    now apply trip_increment_distance.
Qed.

(** X9.  An update never lowers the trip distance and never spoils it:
    from +0, a positive number or +infinity it leaves +0, a positive
    number or +infinity whose exact value is at least the old one, for
    every frame and every clock reading. *)
Theorem trip_distance_never_decreases (now : Z) (st : State) :
  is_distance (totalDistanceKm st) = true ->
  let st' := updateUIFromData now st in
  is_distance (totalDistanceKm st') = true /\
  distance_le (totalDistanceKm st) (totalDistanceKm st').
Proof.
  intros Hd. cbv zeta.
  pose proof (updateUIFromData_trip now st) as Hu. cbv zeta in Hu.
  apply (f_equal snd) in Hu. cbn [snd] in Hu. rewrite Hu.
  apply trip_update_distance; [apply speedValue_range | exact Hd].
Qed.

(** X10.  When the speed value is 0, that is for every frame with rpm
    below 32, an update leaves the distance exactly as it was and only
    moves the timestamp. *)
Theorem trip_standstill (now : Z) (st : State) :
  is_distance (totalDistanceKm st) = true ->
  rpm (read_DashPacket (latestData st)) < 32 ->
  let st' := updateUIFromData now st in
  totalDistanceKm st' = totalDistanceKm st /\ lastTripMillis st' = now.
Proof.
  intros Hd Hrpm. cbv zeta.
  pose proof (rpm_is_uint16 (latestData st)) as Hr. unfold is_uint16 in Hr.
  pose proof (updateUIFromData_trip now st) as Hu. cbv zeta in Hu.
  assert (Hs : speedValue (rpm (read_DashPacket (latestData st))) = 0).
  { rewrite speedValue_div by lia.
    rewrite (Z.div_small (rpm _) 32) by lia. reflexivity. }
  rewrite Hs in Hu. unfold trip_update in Hu.
  destruct (lastTripMillis st =? 0);
    apply pair_equal_spec in Hu; destruct Hu as [Hl Ht].
  - split; [exact Ht | exact Hl].
  - split; [|exact Hl]. rewrite Ht.
    pose proof (trip_hours_finite now (lastTripMillis st)) as Hh.
    change (f32_of_Z 0) with (S754_zero false).
    destruct (trip_hours now (lastTripMillis st)) as [[]|[]| |[] m e];
      try discriminate Hh;
      destruct (totalDistanceKm st) as [[]|[]| |[] mt et];
      try discriminate Hd; reflexivity.
Qed.

Lemma step_distance (ev : event) (m m' : Machine) :
  step ev m = Some m' ->
  is_distance (totalDistanceKm (mstate m)) = true ->
  is_distance (totalDistanceKm (mstate m')) = true /\
  distance_le (totalDistanceKm (mstate m)) (totalDistanceKm (mstate m')).
Proof.
  intros Hs Hd. destruct m as [st p]. cbn [mstate] in *.
  assert (Hsame : forall st1, totalDistanceKm st1 = totalDistanceKm st ->
            is_distance (totalDistanceKm st1) = true /\
            distance_le (totalDistanceKm st) (totalDistanceKm st1)).
  { intros st1 ->. split; [exact Hd | now apply distance_le_refl]. }
  unfold step in Hs. cbn [mstate mpc] in Hs.
  destruct ev as [buf now| |now| | |now].
  - destruct (_ <=? _); [|discriminate]. injection Hs as <-. cbn [mstate].
    apply Hsame. unfold onDataRecv. destruct (_ =? _); reflexivity.
  - destruct p; try discriminate.
    destruct (hasNewData st); injection Hs as <-; now apply Hsame.
  - destruct p; try discriminate. injection Hs as <-. cbn [mstate].
    unfold update_speed_trip.
    pose proof (trip_update_distance
                  (speedValue (rpm (read_DashPacket (latestData st))))
                  now (lastTripMillis st) (totalDistanceKm st)
                  (speedValue_range _) Hd) as Ht.
    destruct (trip_update _ _ _ _) as [last' total']. exact Ht.
  - destruct p; try discriminate. cbn in Hs. injection Hs as <-.
    now apply Hsame.
  - destruct p; try discriminate. injection Hs as <-. now apply Hsame.
  - destruct p; try discriminate. injection Hs as <-. cbn [mstate].
    apply Hsame. unfold update_link_indicator.
    destruct (ui_link_dot (ui st)); reflexivity.
Qed.

Lemma run_distance (tr : list event) (m m' : Machine) :
  run tr m = Some m' ->
  is_distance (totalDistanceKm (mstate m)) = true ->
  is_distance (totalDistanceKm (mstate m')) = true /\
  distance_le (totalDistanceKm (mstate m)) (totalDistanceKm (mstate m')).
Proof.
  revert m. induction tr as [|ev tr IH]; intros m Hrun Hd.
  - injection Hrun as <-. split; [exact Hd | now apply distance_le_refl].
  - cbn [run] in Hrun. destruct (step ev m) as [m1|] eqn:E; [|discriminate].
    destruct (step_distance ev m m1 E Hd) as [Hd1 Hle1].
    destruct (IH m1 Hrun Hd1) as [Hd' Hle']. split; [exact Hd'|].
    exact (distance_le_trans _ _ _ Hle1 Hle').
Qed.

(** X11.  In every run from startup, however the callback interleaves
    with the loop, the trip distance is +0, a positive number or
    +infinity at every point, never negative and never NaN, and between
    any two points of the run it does not decrease. *)
Theorem trip_distance_invariant (d : Display) (t0 : Z)
    (tr1 tr2 : list event) (m1 m2 : Machine) :
  run tr1 (start d t0) = Some m1 ->
  run tr2 m1 = Some m2 ->
  is_distance (totalDistanceKm (mstate m1)) = true /\
  is_distance (totalDistanceKm (mstate m2)) = true /\
  distance_le (totalDistanceKm (mstate m1)) (totalDistanceKm (mstate m2)).
Proof.
  intros H1 H2.
  destruct (run_distance tr1 (start d t0) m1 H1 eq_refl) as [Hd1 _].
  destruct (run_distance tr2 m1 m2 H2 Hd1) as [Hd2 Hle].
  auto.
Qed.

Lemma updateUIFromData_trip_label (now : Z) (st : State) :
  ui_lbl_trip_value (ui (updateUIFromData now st))
  = tripText (totalDistanceKm (updateUIFromData now st)).
Proof.
  unfold updateUIFromData, update_speed_trip, update_battery,
    update_voltage_range.
  destruct (trip_update _ _ _ _) as [last' total']. reflexivity.
Qed.

Lemma dec_starts_with_digit (n : Z) :
  0 <= n -> exists c r, dec n = String c r /\ is_digit c = true.
Proof.
  intros Hn. pose proof (dec_nonempty n Hn) as Hlen.
  pose proof (dec_all_digits n Hn) as Hall.
  destruct (dec n) as [|c r]; [cbn in Hlen; lia|].
  exists c, r. split; [reflexivity|].
  cbn [all_digits] in Hall. now apply andb_prop in Hall as [Hc _].
Qed.

(** X12.  The trip label never shows a minus sign or "nan": after an
    update from a distance that is +0, positive or +infinity, the label
    starts with a digit or reads "inf ". *)
Theorem trip_label_never_negative (now : Z) (st : State) :
  is_distance (totalDistanceKm st) = true ->
  let s := ui_lbl_trip_value (ui (updateUIFromData now st)) in
  s = "inf " \/ starts_with_digit s = true.
Proof.
  intros Hd. cbv zeta. rewrite updateUIFromData_trip_label.
  pose proof (updateUIFromData_trip now st) as Hu. cbv zeta in Hu.
  apply (f_equal snd) in Hu. cbn [snd] in Hu.
  destruct (trip_update_distance
              (speedValue (rpm (read_DashPacket (latestData st))))
              now (lastTripMillis st) (totalDistanceKm st)
              (speedValue_range _) Hd) as [Hd' _].
  rewrite <- Hu in Hd'. clear Hu.
  destruct (totalDistanceKm (updateUIFromData now st)) as [[]|[]| |[] m e];
    try discriminate Hd'.
  - right. reflexivity.
  - left. reflexivity.
  - right. unfold tripText, snprintf, fmt_1f, sign_string.
    pose proof (round_tenths_nonneg m e) as Hn.
    destruct (dec_starts_with_digit (round_tenths m e / 10)
                ltac:(apply Z.div_pos; lia)) as (c & r & -> & Hc).
    cbn. exact Hc.
Qed.

End Target.

(* ================================================================== *)
(** * The model at concrete inputs *)
(* ================================================================== *)

(** The spec's end-to-end example: frame {rpm 4000, batt 12.0}. *)
Lemma end_to_end_example :
  let st := onDataRecv frame_4000_12V 24 1500
              (setup 300 (boot_state blank_display)) in
  let d := ui (loop cast_indefinite 1502 1502 st) in
  ui_lbl_speed d = "125" /\ ui_lbl_battery_value d = "50%" /\
  ui_lbl_range d = "12.0V" /\ ui_slider_range d = 35 /\
  ui_roller_mode d = 2 /\ ui_link_dot d = Some COLOR_GREEN.
Proof. vm_compute. repeat split. Qed.

(** The spec's two link-monitor examples. *)
Lemma link_ok_examples :
  link_ok 1500 500 = false /\ link_ok 1499 500 = true /\
  spec_isLinkUp 1500 500 1000 = false /\ spec_isLinkUp 1499 500 1000 = true.
Proof. vm_compute. repeat split. Qed.

(** C1 fails on the code.  [setup()] returns at 1000 ms; the first frame
    (rpm 4000, speed 125) arrives an hour later and the first
    [updateUIFromData()] runs at 3,601,000 ms: the distance goes from 0 to
    125.0. *)
Lemma first_update_adds_distance :
  let st0 := onDataRecv frame_4000_12V 24 3600998
               (setup 1000 (boot_state blank_display)) in
  let st1 := loop cast_indefinite 3601000 3601000 st0 in
  totalDistanceKm st0 = S754_zero false /\
  totalDistanceKm st1 = f32_of_Z 125 /\
  totalDistanceKm st1 <> totalDistanceKm st0.
Proof.
  vm_compute. split; [reflexivity|]. split; [reflexivity|].
  intros H. discriminate H.
Qed.

(** C3 fails on the code.  Frame A {rpm 4000, batt 12.0} arrives, the loop
    clears the flag and reads [rpm]; frame B {rpm 0, batt 20.0} arrives
    before the loop reads [batt].  The pass shows the speed of A with the
    battery and voltage of B, which is what neither written frame
    renders. *)
Lemma torn_render_between_reads :
  let tr := [Recv frame_4000_12V 1000; Poll; SpeedTrip 1005;
             Recv frame_0_20V 1006; Battery] in
  exists m,
    run cast_indefinite (tr ++ [Voltage])%list (start blank_display 300)
      = Some m /\
    written tr = [frame_4000_12V; frame_0_20V] /\
    ui_lbl_speed (ui (mstate m)) = "125" /\
    ui_lbl_battery_value (ui (mstate m)) = "100%" /\
    ui_lbl_range (ui (mstate m)) = "20.0V" /\
    forall f, In f (written tr) ->
              ~ renders cast_indefinite f (ui (mstate m)).
Proof.
  cbv zeta. eexists. split; [vm_compute; reflexivity|].
  split; [reflexivity|]. split; [reflexivity|]. split; [reflexivity|].
  split; [reflexivity|].
  intros f Hin. change (written _) with [frame_4000_12V; frame_0_20V] in Hin.
  destruct Hin as [<-|[<-|[]]]; intros (H1 & H2 & H3 & H4 & H5 & H6 & H7).
  - vm_compute in H5. discriminate H5.
  - vm_compute in H2. discriminate H2.
Qed.

(** C6 fails on the code.  A call runs when [millis()], having wrapped,
    reads 0 and stores that reading; the next call, an hour later at
    speed 100, finds the stored timestamp 0 and adds nothing. *)
Lemma update_after_zero_reading_adds_nothing :
  let st0 := onDataRecv frame_3200_12V 24 4294966990
               (setup 1000 (boot_state blank_display)) in
  let st1 := loop cast_indefinite 4294967000 4294967000 st0 in
  let st2 := loop cast_indefinite 0 0
               (onDataRecv frame_3200_12V 24 4294967290 st1) in
  let st3 := loop cast_indefinite 3600000 3600000
               (onDataRecv frame_3200_12V 24 3599990 st2) in
  lastTripMillis st2 = 0 /\
  lastTripMillis st3 = 3600000 /\
  totalDistanceKm st3 = totalDistanceKm st2 /\
  totalDistanceKm st3
  <> f32_add (totalDistanceKm st2)
       (f32_mul (f32_of_Z 100)
          (f32_div (f32_of_Z (to_ulong (3600000 - lastTripMillis st2)))
                   (f32_of_Z 3600000))).
Proof.
  vm_compute. split; [reflexivity|]. split; [reflexivity|].
  split; [reflexivity|]. intros H. discriminate H.
Qed.

(** C9 fails on the code.  A frame with batt 1000000.0: the text
    "1000000.0V" has ten characters, [snprintf] keeps nine of them in
    [voltText], and the label ends in a digit, not in "V". *)
Lemma voltage_text_loses_unit :
  let st := onDataRecv frame_4000_1MV 24 1500
              (setup 300 (boot_state blank_display)) in
  let st' := loop cast_indefinite 1502 1502 st in
  batt (read_DashPacket (latestData st)) = f32_of_Z 1000000 /\
  ui_lbl_range (ui st') = "1000000.0" /\
  ~ (exists t, ui_lbl_range (ui st') = t ++ "V").
Proof.
  cbv zeta. split; [reflexivity|]. split; [vm_compute; reflexivity|].
  intros [t H]. apply (f_equal last_char) in H.
  rewrite last_char_append_one in H. vm_compute in H. discriminate H.
Qed.

(** C10 fails on the code.  A frame with batt 14.01 lies outside
    [10, 14], yet its label "14.0V" is what the clamped voltage 14.0
    prints. *)
Lemma voltage_label_equals_clamped_rendering :
  let st := onDataRecv frame_4000_14V01 24 1500
              (setup 300 (boot_state blank_display)) in
  let st' := loop cast_indefinite 1502 1502 st in
  let v := batt (read_DashPacket (latestData st)) in
  v = f32_of_bits 0x416028F6 /\
  f32_gt v (f32_of_Z 14) = true /\
  ui_lbl_range (ui st') = "14.0V" /\
  voltText (constrainf v (f32_of_Z 10) (f32_of_Z 14)) = "14.0V" /\
  ui_lbl_battery_value (ui st') = "100%".
Proof. vm_compute. repeat split. Qed.

(* ================================================================== *)
(** * The theorems with hypotheses, at concrete inputs *)
(* ================================================================== *)

Lemma speedValue_clamp_monotone_witness :
  is_uint16 4000 /\
  speedValue 4000 = spec_clamp (4000 / 32) 0 250 /\
  speedValue 4000 <= speedValue 9000.
Proof.
  assert (H4 : is_uint16 4000) by (unfold is_uint16; lia).
  assert (H9 : is_uint16 9000) by (unfold is_uint16; lia).
  destruct (speedValue_clamp_monotone cast_indefinite 4000 H4)
    as (H1 & H2 & _).
  split; [exact H4|]. split; [exact H1|].
  apply (H2 9000 H9). lia.
Defined.

Lemma onDataRecv_spec_witness :
  let st := setup 300 (boot_state blank_display) in
  is_int 24 /\
  latestData (onDataRecv frame_4000_12V 24 1500 st) = frame_4000_12V /\
  hasNewData (onDataRecv frame_4000_12V 24 1500 st) = true /\
  lastPacketMillis (onDataRecv frame_4000_12V 24 1500 st) = 1500 /\
  onDataRecv frame_4000_12V 23 1500 st = st.
Proof.
  cbv zeta.
  assert (H24 : is_int 24) by (unfold is_int, INT_MIN, INT_MAX; lia).
  assert (H23 : is_int 23) by (unfold is_int, INT_MIN, INT_MAX; lia).
  destruct (onDataRecv_spec frame_4000_12V 24 1500
              (setup 300 (boot_state blank_display)) H24 eq_refl)
    as [Hok _].
  destruct (onDataRecv_spec frame_4000_12V 23 1500
              (setup 300 (boot_state blank_display)) H23 eq_refl)
    as [_ Hrej].
  destruct (Hok eq_refl eq_refl) as (H1 & H2 & H3 & _).
  split; [exact H24|]. split; [exact H1|]. split; [exact H2|].
  split; [exact H3|]. apply Hrej. unfold sizeof_DashPacket. lia.
Defined.

Lemma trip_accumulates_witness :
  let st := set_hasNewData false
              (onDataRecv frame_3200_12V 24 3601490
                 (setup 1500 (boot_state blank_display))) in
  let st' := updateUIFromData cast_indefinite 3601500 st in
  lastTripMillis st <> 0 /\
  totalDistanceKm st' = f32_of_Z 100 /\
  lastTripMillis st' = 3601500.
Proof.
  cbv zeta.
  set (st := set_hasNewData false
               (onDataRecv frame_3200_12V 24 3601490
                  (setup 1500 (boot_state blank_display)))).
  assert (Hne : lastTripMillis st <> 0) by (vm_compute; discriminate).
  destruct (trip_accumulates cast_indefinite 3601500 st Hne)
    as (_ & Hlast & Hhour).
  destruct (Hhour eq_refl eq_refl) as [_ Hzero].
  split; [exact Hne|]. split; [exact (Hzero eq_refl) | exact Hlast].
Defined.

Lemma pass_without_arrival_witness :
  let tr := [Recv frame_4000_12V 1000] in
  let tick := [Poll; SpeedTrip 1005; Recv [x00; x01] 1006; Battery;
               Voltage] in
  exists m m',
    run cast_indefinite tr (start blank_display 300) = Some m /\
    run cast_indefinite tick m = Some m' /\
    latestData (mstate m') = frame_4000_12V /\
    renders cast_indefinite frame_4000_12V (ui (mstate m')).
Proof.
  cbv zeta.
  destruct (run cast_indefinite [Recv frame_4000_12V 1000]
              (start blank_display 300)) as [m|] eqn:Em;
    [|vm_compute in Em; discriminate Em].
  destruct (run cast_indefinite
              [Poll; SpeedTrip 1005; Recv [x00; x01] 1006; Battery; Voltage]
              m) as [m'|] eqn:Em';
    [|vm_compute in Em; injection Em as <-; vm_compute in Em';
      discriminate Em'].
  exists m, m'. split; [reflexivity|]. split; [exact Em'|].
  assert (Hpc : mpc m = AtPoll)
    by (vm_compute in Em; injection Em as <-; reflexivity).
  assert (Hflag : hasNewData (mstate m) = true)
    by (vm_compute in Em; injection Em as <-; reflexivity).
  assert (Hno : no_arrival
                  [Poll; SpeedTrip 1005; Recv [x00; x01] 1006; Battery;
                   Voltage])
    by (repeat constructor).
  destruct (pass_without_arrival_renders_one_frame cast_indefinite
              blank_display 300 [Recv frame_4000_12V 1000] _ 1005 m m'
              Em Hpc Hflag Hno eq_refl Em')
    as (f & _ & Hf & Hslot & Hrender & _).
  change (last (written [Recv frame_4000_12V 1000]) [])
    with frame_4000_12V in Hf. subst f.
  split; [exact Hslot | exact Hrender].
Defined.

Lemma first_update_after_setup_witness :
  let st0 := onDataRecv frame_4000_12V 24 3600998
               (setup 1000 (boot_state blank_display)) in
  let st1 := updateUIFromData cast_indefinite 3601000
               (set_hasNewData false st0) in
  let st0' := onDataRecv frame_4000_12V 24 3600998
                (setup 0 (boot_state blank_display)) in
  let st1' := updateUIFromData cast_indefinite 3601000
                (set_hasNewData false st0') in
  lastTripMillis st1 = 3601000 /\
  totalDistanceKm st1 = f32_of_Z 125 /\
  totalDistanceKm st1' = totalDistanceKm st0'.
Proof.
  cbv zeta.
  destruct (first_update_after_setup cast_indefinite blank_display
              1000 3600998 3601000 frame_4000_12V)
    as (_ & _ & Hlast & _ & Hadd).
  destruct (first_update_after_setup cast_indefinite blank_display
              0 3600998 3601000 frame_4000_12V)
    as (_ & _ & _ & Hzero & _).
  split; [exact Hlast|]. split.
  - exact (eq_trans (Hadd ltac:(discriminate)) eq_refl).
  - exact (Hzero eq_refl).
Defined.

Lemma battPercent_spec_witness :
  let low := f32_of_bits 0x41100000 in
  let high := f32_of_Z 20 in
  f32_lt low (f32_of_Z 10) = true /\
  battPercent cast_indefinite low = 0 /\
  f32_gt high (f32_of_Z 14) = true /\
  battPercent cast_indefinite high = 100 /\
  0 <= battPercent cast_indefinite S754_nan <= 100.
Proof.
  cbv zeta.
  destruct (battPercent_spec cast_indefinite (f32_of_bits 0x41100000))
    as (_ & _ & _ & _ & _ & Hlow & _).
  destruct (battPercent_spec cast_indefinite (f32_of_Z 20))
    as (_ & _ & _ & _ & _ & _ & Hhigh & _).
  destruct (battPercent_spec cast_indefinite S754_nan) as (_ & Hnan & _).
  split; [reflexivity|]. split; [exact (Hlow eq_refl)|].
  split; [reflexivity|]. split; [exact (Hhigh eq_refl)|]. exact Hnan.
Defined.

Lemma roller_mode_bands_witness :
  let st := onDataRecv frame_4000_12V 24 1500
              (setup 300 (boot_state blank_display)) in
  ui_roller_mode (ui (updateUIFromData cast_indefinite 1502 st)) = 2 /\
  roller_mode 125 = 2.
Proof.
  cbv zeta.
  destruct (roller_mode_bands cast_indefinite 1502
              (onDataRecv frame_4000_12V 24 1500
                 (setup 300 (boot_state blank_display))) 125)
    as (Hui & _ & _ & Hband & _).
  split; [rewrite Hui; reflexivity|]. apply Hband. lia.
Defined.

Lemma label_texts_witness :
  let st := onDataRecv frame_4000_12V 24 1500
              (setup 300 (boot_state blank_display)) in
  let d := ui (updateUIFromData cast_indefinite 1502 st) in
  ui_lbl_speed d = "125" /\ ui_lbl_battery_value d = "50%" /\
  ui_lbl_trip_value d = "0.0 " /\ ui_lbl_range d = "12.0V".
Proof.
  cbv zeta.
  destruct (label_texts cast_indefinite 1502
              (onDataRecv frame_4000_12V 24 1500
                 (setup 300 (boot_state blank_display))))
    as ((Hs & _) & (Hb & _) & Ht & Hv).
  destruct (Ht eq_refl) as [Ht' _]. destruct (Hv eq_refl) as [Hv' _].
  split; [rewrite Hs; reflexivity|]. split; [rewrite Hb; reflexivity|].
  split; [rewrite Ht'; reflexivity | rewrite Hv'; reflexivity].
Defined.

Lemma voltage_label_shows_received_value_witness :
  let st := onDataRecv frame_0_20V 24 1500
              (setup 300 (boot_state blank_display)) in
  let v := batt (read_DashPacket (latestData st)) in
  let d := ui (updateUIFromData cast_indefinite 1502 st) in
  f32_gt v f32_14_05_down = true /\
  ui_lbl_range d = "20.0V" /\
  ui_lbl_battery_value d = "100%" /\
  ui_lbl_range d <> voltText (constrainf v (f32_of_Z 10) (f32_of_Z 14)).
Proof.
  cbv zeta.
  destruct (voltage_label_shows_received_value cast_indefinite 1502
              (onDataRecv frame_0_20V 24 1500
                 (setup 300 (boot_state blank_display))))
    as (_ & _ & _ & _ & Hdiff & H20).
  destruct (H20 eq_refl) as [Hv Hp].
  split; [reflexivity|]. split; [exact Hv|]. split; [exact Hp|].
  apply Hdiff. right. reflexivity.
Defined.


(* ================================================================== *)
(** * Instances of the further properties *)
(* ================================================================== *)

Lemma link_dot_after_arrival_witness :
  let st := setup 300 (boot_state blank_display) in
  is_ulong 4294967000 /\ is_ulong 500 /\
  ui_link_dot (ui st) <> None /\
  ui_link_dot
    (ui (loop cast_indefinite 150 (to_ulong (4294967000 + 500))
           (onDataRecv frame_4000_12V sizeof_DashPacket 4294967000 st)))
  = Some COLOR_GREEN.
Proof.
  cbv zeta.
  assert (H1 : is_ulong 4294967000) by (unfold is_ulong, ULONG_MOD; lia).
  assert (H2 : is_ulong 500) by (unfold is_ulong, ULONG_MOD; lia).
  assert (H3 : ui_link_dot (ui (setup 300 (boot_state blank_display)))
               <> None) by discriminate.
  split; [exact H1|]. split; [exact H2|]. split; [exact H3|].
  exact (link_dot_after_arrival cast_indefinite frame_4000_12V
           4294967000 500 150 (setup 300 (boot_state blank_display))
           H1 H2 H3).
Defined.

Lemma trip_elapsed_across_wrap_witness :
  let st := set_hasNewData false
              (onDataRecv frame_3200_12V 24 4294967100
                 (setup 4294967000 (boot_state blank_display))) in
  is_ulong (lastTripMillis st) /\ lastTripMillis st <> 0 /\
  to_ulong (lastTripMillis st + 3600000) = 3599704 /\
  totalDistanceKm
    (updateUIFromData cast_indefinite
       (to_ulong (lastTripMillis st + 3600000)) st)
  = f32_of_Z 100.
Proof.
  cbv zeta.
  set (st := set_hasNewData false
               (onDataRecv frame_3200_12V 24 4294967100
                  (setup 4294967000 (boot_state blank_display)))).
  assert (H1 : is_ulong (lastTripMillis st))
    by (vm_compute; split; [discriminate | reflexivity]).
  assert (H2 : lastTripMillis st <> 0) by (vm_compute; discriminate).
  assert (H3 : is_ulong 3600000) by (unfold is_ulong, ULONG_MOD; lia).
  split; [exact H1|]. split; [exact H2|]. split; [reflexivity|].
  etransitivity;
    [exact (trip_elapsed_across_wrap cast_indefinite 3600000 st H1 H2 H3)|].
  vm_compute. reflexivity.
Defined.

Lemma latest_frame_wins_witness :
  let st := setup 300 (boot_state blank_display) in
  let st' :=
    loop cast_indefinite 1010 1011
      (onDataRecv frame_4000_12V sizeof_DashPacket 1005
         (onDataRecv frame_0_20V sizeof_DashPacket 1000 st)) in
  renders cast_indefinite frame_4000_12V (ui st') /\
  latestData st' = frame_4000_12V /\
  hasNewData st' = false /\
  lastPacketMillis st' = 1005.
Proof.
  exact (latest_frame_wins cast_indefinite frame_0_20V frame_4000_12V
           1000 1005 1010 1011 (setup 300 (boot_state blank_display))
           eq_refl eq_refl eq_refl).
Defined.

Lemma idle_passes_keep_telemetry_witness :
  let st := loop cast_indefinite 1010 1011
              (onDataRecv frame_4000_12V sizeof_DashPacket 1005
                 (setup 300 (boot_state blank_display))) in
  let st' := run_loop cast_indefinite [(1500, 1501); (2500, 2501)] st in
  hasNewData st = false /\
  telemetry (ui st') = telemetry (ui st) /\
  totalDistanceKm st' = totalDistanceKm st /\
  ui_link_dot (ui st) = Some COLOR_GREEN /\
  ui_link_dot (ui st') = Some COLOR_RED.
Proof.
  cbv zeta.
  set (st := loop cast_indefinite 1010 1011
               (onDataRecv frame_4000_12V sizeof_DashPacket 1005
                  (setup 300 (boot_state blank_display)))).
  assert (H : hasNewData st = false) by (vm_compute; reflexivity).
  destruct (idle_passes_keep_telemetry cast_indefinite
              [(1500, 1501); (2500, 2501)] st H)
    as (Ht & _ & _ & _ & Hd & _).
  split; [exact H|]. split; [exact Ht|]. split; [exact Hd|].
  split; vm_compute; reflexivity.
Defined.

Lemma malformed_frames_keep_nothing_alive_witness :
  let m := mkMachine
             (loop cast_indefinite 1010 1011
                (onDataRecv frame_4000_12V sizeof_DashPacket 1005
                   (setup 300 (boot_state blank_display)))) AtPoll in
  let tr := [Recv [x00; x01] 1500; Poll; Recv [] 2400] in
  no_arrival tr /\
  exists m',
    run cast_indefinite (tr ++ [Link 2500])%list m = Some m' /\
    latestData (mstate m') = frame_4000_12V /\
    lastPacketMillis (mstate m') = 1005 /\
    ui_link_dot (ui (mstate m')) = Some COLOR_RED.
Proof.
  cbv zeta.
  set (m := mkMachine
              (loop cast_indefinite 1010 1011
                 (onDataRecv frame_4000_12V sizeof_DashPacket 1005
                    (setup 300 (boot_state blank_display)))) AtPoll).
  assert (Hna : no_arrival [Recv [x00; x01] 1500; Poll; Recv [] 2400])
    by (repeat constructor).
  assert (Hdot : ui_link_dot (ui (mstate m)) <> None)
    by (vm_compute; discriminate).
  split; [exact Hna|].
  destruct (run cast_indefinite
              ([Recv [x00; x01] 1500; Poll; Recv [] 2400] ++ [Link 2500])%list
              m) as [m'|] eqn:Em'; [|vm_compute in Em'; discriminate Em'].
  exists m'. split; [reflexivity|].
  destruct (malformed_frames_keep_nothing_alive cast_indefinite
              [Recv [x00; x01] 1500; Poll; Recv [] 2400] 2500 m m'
              Hna Hdot Em') as (Hslot & Hlast & _ & Hcol).
  split; [rewrite Hslot; vm_compute; reflexivity|].
  split; [rewrite Hlast; vm_compute; reflexivity|].
  rewrite Hcol. vm_compute. reflexivity.
Defined.

Lemma my_disp_flush_pixel_count_witness :
  let area := mkArea 0 17 319 33 in
  win_w (my_disp_flush area) = 320 /\
  win_h (my_disp_flush area) = 17 /\
  push_len (my_disp_flush area) = 5440.
Proof.
  cbv zeta.
  destruct (my_disp_flush_pixel_count (mkArea 0 17 319 33))
    as (_ & _ & Hw & Hh & Hn & _);
    try (cbn [x1 x2 y1 y2]; unfold screenWidth, screenHeight; lia).
  split; [exact Hw|]. split; [exact Hh | exact Hn].
Defined.

Lemma trip_distance_never_decreases_witness :
  let st := set_hasNewData false
              (onDataRecv frame_3200_12V 24 3601490
                 (setup 1500 (boot_state blank_display))) in
  let st' := updateUIFromData cast_indefinite 3601500 st in
  is_distance (totalDistanceKm st) = true /\
  is_distance (totalDistanceKm st') = true /\
  distance_le (totalDistanceKm st) (totalDistanceKm st').
Proof.
  cbv zeta.
  set (st := set_hasNewData false
               (onDataRecv frame_3200_12V 24 3601490
                  (setup 1500 (boot_state blank_display)))).
  assert (H : is_distance (totalDistanceKm st) = true) by reflexivity.
  split; [exact H|].
  exact (trip_distance_never_decreases cast_indefinite 3601500 st H).
Defined.

Lemma trip_standstill_witness :
  let st0 := updateUIFromData cast_indefinite 3601500
               (set_hasNewData false
                  (onDataRecv frame_3200_12V 24 3601490
                     (setup 1500 (boot_state blank_display)))) in
  let st := set_hasNewData false (onDataRecv frame_0_20V 24 3601900 st0) in
  let st' := updateUIFromData cast_indefinite 7201500 st in
  totalDistanceKm st = f32_of_Z 100 /\
  rpm (read_DashPacket (latestData st)) < 32 /\
  totalDistanceKm st' = f32_of_Z 100 /\
  lastTripMillis st' = 7201500.
Proof.
  cbv zeta.
  set (st := set_hasNewData false
               (onDataRecv frame_0_20V 24 3601900
                  (updateUIFromData cast_indefinite 3601500
                     (set_hasNewData false
                        (onDataRecv frame_3200_12V 24 3601490
                           (setup 1500 (boot_state blank_display))))))).
  assert (Ht : totalDistanceKm st = f32_of_Z 100)
    by (vm_compute; reflexivity).
  assert (Hd : is_distance (totalDistanceKm st) = true)
    by (rewrite Ht; reflexivity).
  assert (Hr : rpm (read_DashPacket (latestData st)) < 32)
    by (vm_compute; reflexivity).
  destruct (trip_standstill cast_indefinite 7201500 st Hd Hr)
    as [Hsame Hlast].
  split; [exact Ht|]. split; [exact Hr|].
  split; [rewrite Hsame; exact Ht | exact Hlast].
Defined.

Lemma trip_distance_invariant_witness :
  let tr1 := [Recv frame_3200_12V 3601490; Poll; SpeedTrip 3601500] in
  let tr2 := [Battery; Recv frame_4000_12V 3601600; Voltage;
              Link 3601700; Poll; SpeedTrip 7201500] in
  exists m1 m2,
    run cast_indefinite tr1 (start blank_display 1500) = Some m1 /\
    run cast_indefinite tr2 m1 = Some m2 /\
    totalDistanceKm (mstate m1) = f32_of_Z 100 /\
    is_distance (totalDistanceKm (mstate m2)) = true /\
    distance_le (totalDistanceKm (mstate m1)) (totalDistanceKm (mstate m2)).
Proof.
  cbv zeta.
  destruct (run cast_indefinite
              [Recv frame_3200_12V 3601490; Poll; SpeedTrip 3601500]
              (start blank_display 1500)) as [m1|] eqn:E1;
    [|vm_compute in E1; discriminate E1].
  destruct (run cast_indefinite
              [Battery; Recv frame_4000_12V 3601600; Voltage;
               Link 3601700; Poll; SpeedTrip 7201500] m1) as [m2|] eqn:E2;
    [|vm_compute in E1; injection E1 as <-; vm_compute in E2;
      discriminate E2].
  exists m1, m2. split; [reflexivity|]. split; [exact E2|].
  destruct (trip_distance_invariant cast_indefinite blank_display 1500
              _ _ m1 m2 E1 E2) as (_ & Hd2 & Hle).
  split; [|split; [exact Hd2 | exact Hle]].
  vm_compute in E1. injection E1 as <-. vm_compute. reflexivity.
Defined.

Lemma trip_label_never_negative_witness :
  let st := set_hasNewData false
              (onDataRecv frame_3200_12V 24 3601490
                 (setup 1500 (boot_state blank_display))) in
  let st' := updateUIFromData cast_indefinite 3601500 st in
  is_distance (totalDistanceKm st) = true /\
  ui_lbl_trip_value (ui st') = "100.0 " /\
  starts_with_digit (ui_lbl_trip_value (ui st')) = true.
Proof.
  cbv zeta.
  set (st := set_hasNewData false
               (onDataRecv frame_3200_12V 24 3601490
                  (setup 1500 (boot_state blank_display)))).
  assert (H : is_distance (totalDistanceKm st) = true) by reflexivity.
  assert (Hs : ui_lbl_trip_value
                 (ui (updateUIFromData cast_indefinite 3601500 st))
               = "100.0 ") by (vm_compute; reflexivity).
  split; [exact H|]. split; [exact Hs|].
  destruct (trip_label_never_negative cast_indefinite 3601500 st H)
    as [Hinf | Hdig]; [|exact Hdig].
  rewrite Hs in Hinf. discriminate Hinf.
Defined.
